(** * Groundtruther, [ioutils.py]: annotation parsing and layer export helpers

    A shallow embedding of the module [ioutils.py] and the properties of its
    functions.  Python values are embedded as the inductive type [pyobj];
    code that can raise returns a [result]; calls into the host application,
    the file system and the network are answered by an environment record and
    logged as a trace of events.

    Text is embedded as [string], the sequence of the UTF-8 bytes of the
    Python [str].  The pattern [".jpg"] is ASCII, so its occurrences in the
    byte sequence are its occurrences in the text, and the byte-wise
    lexicographic order of UTF-8 is the code-point order Python compares
    [str] with. *)

From Stdlib Require Import List String Ascii ZArith Bool Arith Lia.
From Stdlib Require Import PrimFloat DecimalString Sorted Permutation.
From Stdlib Require Import OrdersEx RelationClasses.
From Stdlib Require DecimalPos DecimalZ.
Import ListNotations.

Local Open Scope string_scope.
Local Open Scope list_scope.

Set Warnings "-register-all".

(** ** Python values and exceptions *)

(** The values the module handles.  A [PDict] keeps its items in insertion
    order, as a Python [dict] does; a missing table cell is the float [nan],
    as in pandas. *)
Inductive pyobj : Type :=
| PNone
| PInt (z : Z)
| PFloat (f : float)
| PStr (s : string)
| PList (l : list pyobj)
| PDict (d : list (string * pyobj))
| PObj (name : string).

Inductive exn : Type :=
| ParserError
| AttributeError (msg : string)
| KeyError (key : string)
| NameError (name : string)
| JSONDecodeError
| OSError (path : string)
| ConnectionError
| RequestException.

Inductive result (A : Type) : Type :=
| Ok (a : A)
| Raise (e : exn).

Arguments Ok {A} a.
Arguments Raise {A} e.

Definition bind {A B : Type} (m : result A) (k : A -> result B) : result B :=
  match m with
  | Ok a => k a
  | Raise e => Raise e
  end.

Notation "x <- m ;; k" := (bind m (fun x => k))
  (at level 61, m at next level, right associativity).

Fixpoint mapM {A B : Type} (f : A -> result B) (l : list A) : result (list B) :=
  match l with
  | [] => Ok []
  | x :: l' => y <- f x ;; ys <- mapM f l' ;; Ok (y :: ys)
  end.

Definition NaN : pyobj := PFloat nan.

(** [d[key]] on a dict or a labelled row. *)
Fixpoint lookup {A : Type} (key : string) (d : list (string * A)) : option A :=
  match d with
  | [] => None
  | (k, v) :: d' => if String.eqb k key then Some v else lookup key d'
  end.

Definition getitem {A : Type} (d : list (string * A)) (key : string) : result A :=
  match lookup key d with
  | Some v => Ok v
  | None => Raise (KeyError key)
  end.

(** The items of a dict; another value has none. *)
Definition dict_items (o : pyobj) : list (string * pyobj) :=
  match o with
  | PDict d => d
  | _ => []
  end.

(** [d[key] = v]: an existing key keeps its position, a new key goes last. *)
Fixpoint setitem {A : Type} (d : list (string * A)) (key : string) (v : A)
  : list (string * A) :=
  match d with
  | [] => [(key, v)]
  | (k, w) :: d' =>
      if String.eqb k key then (k, v) :: d' else (k, w) :: setitem d' key v
  end.

(** [str(n)] for an [int]. *)
Definition str_of_int (z : Z) : string := NilZero.string_of_int (Z.to_int z).

(** ** [str.replace] *)

(** [replace_from old new skip s]: the scan of [str.replace] over [s], where
    [skip] counts the characters of an occurrence of [old] found earlier that
    are still to be passed over.  Occurrences are taken from the left and do
    not overlap. *)
Fixpoint replace_from (old new : string) (skip : nat) (s : string) : string :=
  match s with
  | EmptyString => EmptyString
  | String c rest =>
      match skip with
      | S k => replace_from old new k rest
      | O =>
          if prefix old s
          then new ++ replace_from old new (String.length old - 1) rest
          else String c (replace_from old new 0 rest)
      end
  end%string.

(** With an empty [old], Python puts [new] before every character and at the
    end. *)
Fixpoint interleave (new s : string) : string :=
  match s with
  | EmptyString => new
  | String c rest => new ++ String c (interleave new rest)
  end%string.

Definition str_replace (s old new : string) : string :=
  match old with
  | EmptyString => interleave new s
  | _ => replace_from old new 0 s
  end.

(** [old] occurs somewhere in [s]. *)
Fixpoint occurs (old s : string) : bool :=
  prefix old s ||
  match s with
  | EmptyString => false
  | String _ rest => occurs old rest
  end.

(** ** The table read by [pandas.read_csv] *)

(** A line of the annotation file is given by its fields as pandas holds
    them after tokenising and type conversion: [PStr] for text, [PInt] or
    [PFloat] for a number, [NaN] for an empty field.  A blank line has no
    field.  The input of the model is a file that the tokenizer can split
    into lines and fields; a text it cannot split (a quote left open) is
    refused by [read_csv] before and has no list of lines here. *)
Definition csv_line : Type := list pyobj.

(** A row of a data frame: column label and value, in column order. *)
Definition Series : Type := list (string * pyobj).

(** A data frame, row by row. *)
Definition DataFrame : Type := list Series.

(** [skiprows]: the lines whose number in the file is listed are dropped. *)
Fixpoint drop_lines (skiprows : list nat) (i : nat) (lines : list csv_line)
  : list csv_line :=
  match lines with
  | [] => []
  | l :: ls =>
      if existsb (Nat.eqb i) skiprows
      then drop_lines skiprows (S i) ls
      else l :: drop_lines skiprows (S i) ls
  end.

Definition is_blank (l : csv_line) : bool :=
  match l with
  | [] => true
  | _ => false
  end.

Definition data_lines (file : list csv_line) (skiprows : list nat) : list csv_line :=
  filter (fun l => negb (is_blank l)) (drop_lines skiprows 0 file).

(** The number of fields pandas expects per line once [names] is passed: the
    number of names, or the number of fields of the first data line when
    that is larger. *)
Definition table_width (lines : list csv_line) (ncols : nat) : nat :=
  match lines with
  | [] => ncols
  | l :: _ => Nat.max ncols (List.length l)
  end.

(** A short line is filled up with [nan]; when the table is wider than
    [names], the leading fields become the index and the names label the
    remaining ones. *)
Definition fit_line (width ncols : nat) (l : csv_line) : csv_line :=
  skipn (width - ncols) (l ++ repeat NaN (width - List.length l)).

(** The cells of the data rows, or the tokenizer's error for a line with
    more fields than expected. *)
Definition data_cells (file : list csv_line) (skiprows : list nat) (ncols : nat)
  : result (list csv_line) :=
  let lines := data_lines file skiprows in
  let width := table_width lines ncols in
  if forallb (fun l => (List.length l <=? width)%nat) lines
  then Ok (map (fit_line width ncols) lines)
  else Raise ParserError.

(** [pd.read_csv(file, skiprows=skiprows, names=names)] *)
Definition read_csv (file : list csv_line) (skiprows : list nat) (names : list string)
  : result DataFrame :=
  cells <- data_cells file skiprows (List.length names) ;;
  Ok (map (combine names) cells).

(** [df[col]] *)
Definition frame_getitem (df : DataFrame) (col : string) : result (list pyobj) :=
  mapM (fun row => getitem row col) df.

(** [df[col] = values]; the values are aligned with the rows, a row without a
    value gets [nan]. *)
Fixpoint frame_setitem (df : DataFrame) (col : string) (values : list pyobj)
  : DataFrame :=
  match df with
  | [] => []
  | row :: df' =>
      match values with
      | [] => setitem row col NaN :: frame_setitem df' col []
      | v :: values' => setitem row col v :: frame_setitem df' col values'
      end
  end.

Definition is_str (o : pyobj) : bool :=
  match o with
  | PStr _ => true
  | _ => false
  end.

(** The [.str] accessor is there for a column of text (an empty column
    included); a column of numbers, or of missing values only, has none. *)
Definition has_str_accessor (col : list pyobj) : bool :=
  match col with
  | [] => true
  | _ => existsb is_str col
  end.

Definition str_accessor_error : exn :=
  AttributeError "Can only use .str accessor with string values!".

(** [col.str.replace(pat, repl, regex=False)]: element-wise [str.replace];
    an element that is not text gives [nan]. *)
Definition Series_str_replace (col : list pyobj) (pat repl : string)
  : result (list pyobj) :=
  if has_str_accessor col
  then Ok (map (fun o => match o with
                         | PStr s => PStr (str_replace s pat repl)
                         | _ => NaN
                         end) col)
  else Raise str_accessor_error.

(** [df.apply(func, axis=1)] for a [func] that returns a dict: the column of
    the results, row by row. *)
Definition frame_apply (func : Series -> result pyobj) (df : DataFrame)
  : result (list pyobj) :=
  mapM func df.

(** ** [groupby(...).agg(...).to_dict("index")] *)

(** The group keys: the distinct values of the key column, sorted
    ([sort=True]); a missing key is dropped ([dropna=True]).  The key column
    of this module holds text or [nan]. *)
Definition key_of (o : pyobj) : list string :=
  match o with
  | PStr s => [s]
  | _ => []
  end.

Fixpoint insert_key (k : string) (l : list string) : list string :=
  match l with
  | [] => [k]
  | x :: l' =>
      match String_as_OT.compare k x with
      | Lt => k :: l
      | Eq => l
      | Gt => x :: insert_key k l'
      end
  end.

Definition sorted_unique (l : list string) : list string :=
  fold_right insert_key [] l.

Definition in_group (by_ : string) (k : string) (row : Series) : bool :=
  match lookup by_ row with
  | Some (PStr s) => String.eqb s k
  | _ => false
  end.

(** [{col: list}]: the values of each listed column, in row order. *)
Definition agg_list (rows : DataFrame) (cols : list string)
  : result (list (string * pyobj)) :=
  mapM (fun c => vs <- frame_getitem rows c ;; Ok (c, PList vs)) cols.

Definition groupby_agg_to_dict (df : DataFrame) (by_ : string) (cols : list string)
  : result pyobj :=
  keycol <- frame_getitem df by_ ;;
  items <- mapM (fun k =>
                   rec <- agg_list (filter (in_group by_ k) df) cols ;;
                   Ok (k, PDict rec))
                (sorted_unique (flat_map key_of keycol)) ;;
  Ok (PDict items).

(** ** [bbox_parser] and [parse_annotation] *)

Definition bbox_parser (row : Series) (columns : list string) (name : string)
  : result pyobj :=
  vs <- mapM (fun i => getitem row i) columns ;;
  Ok (PDict [(name, PList vs)]).

Definition names : list string :=
  [ "Detection"; "Imagename"; "Frame_Identifier"; "TL_x"; "TL_y"; "BR_x";
    "BR_y"; "detection_Confidence"; "Target_Length"; "Species"; "Confidence" ].

Definition columns : list string :=
  [ "TL_x"; "BR_y"; "BR_x"; "BR_y"; "BR_x"; "TL_y"; "TL_x"; "TL_y" ].

(** The frame [imageannotation] as it stands before the grouping. *)
Definition annotation_frame (annotation_file : list csv_line) : result DataFrame :=
  imageannotation <- read_csv annotation_file [0; 1]%nat names ;;
  imagename <- frame_getitem imageannotation "Imagename" ;;
  imagename <- Series_str_replace imagename ".jpg" "" ;;
  let imageannotation := frame_setitem imageannotation "Imagename" imagename in
  bbox <- frame_apply (fun row => bbox_parser row columns "bbox") imageannotation ;;
  Ok (frame_setitem imageannotation "bbox" bbox).

Definition parse_annotation (annotation_file : list csv_line) : result pyobj :=
  imageannotation <- annotation_frame annotation_file ;;
  groupby_agg_to_dict imageannotation "Imagename" ["bbox"; "Species"; "Confidence"].

(** ** The data rows as records *)

(** One data row of the annotation table, by column. *)
Record DetectionRow : Type := mkDetectionRow {
  Detection : pyobj;
  Imagename : pyobj;
  Frame_Identifier : pyobj;
  TL_x : pyobj;
  TL_y : pyobj;
  BR_x : pyobj;
  BR_y : pyobj;
  detection_Confidence : pyobj;
  Target_Length : pyobj;
  Species : pyobj;
  Confidence : pyobj
}.

Definition row_of_cells (cells : csv_line) : DetectionRow :=
  {| Detection := nth 0 cells NaN;
     Imagename := nth 1 cells NaN;
     Frame_Identifier := nth 2 cells NaN;
     TL_x := nth 3 cells NaN;
     TL_y := nth 4 cells NaN;
     BR_x := nth 5 cells NaN;
     BR_y := nth 6 cells NaN;
     detection_Confidence := nth 7 cells NaN;
     Target_Length := nth 8 cells NaN;
     Species := nth 9 cells NaN;
     Confidence := nth 10 cells NaN |}.

(** The data rows of an annotation file, in file order. *)
Definition detections (annotation_file : list csv_line) : result (list DetectionRow) :=
  cells <- data_cells annotation_file [0; 1]%nat 11 ;;
  Ok (map row_of_cells cells).

(** The row as [read_csv] labels it. *)
Definition series_of (d : DetectionRow) : Series :=
  [ ("Detection", Detection d); ("Imagename", Imagename d);
    ("Frame_Identifier", Frame_Identifier d); ("TL_x", TL_x d);
    ("TL_y", TL_y d); ("BR_x", BR_x d); ("BR_y", BR_y d);
    ("detection_Confidence", detection_Confidence d);
    ("Target_Length", Target_Length d); ("Species", Species d);
    ("Confidence", Confidence d) ].

(** The image identifier after [.str.replace(".jpg", "", regex=False)]. *)
Definition normalize (o : pyobj) : pyobj :=
  match o with
  | PStr s => PStr (str_replace s ".jpg" "")
  | _ => NaN
  end.

(** The value [bbox_parser] gives for a row. *)
Definition bbox_of (d : DetectionRow) : pyobj :=
  PDict [("bbox", PList [TL_x d; BR_y d; BR_x d; BR_y d;
                         BR_x d; TL_y d; TL_x d; TL_y d])].

(** The row as it stands in [imageannotation] before the grouping. *)
Definition annotated (d : DetectionRow) : Series :=
  [ ("Detection", Detection d); ("Imagename", normalize (Imagename d));
    ("Frame_Identifier", Frame_Identifier d); ("TL_x", TL_x d);
    ("TL_y", TL_y d); ("BR_x", BR_x d); ("BR_y", BR_y d);
    ("detection_Confidence", detection_Confidence d);
    ("Target_Length", Target_Length d); ("Species", Species d);
    ("Confidence", Confidence d); ("bbox", bbox_of d) ].

(** The rows whose normalized image identifier is [k]. *)
Definition has_id (k : string) (d : DetectionRow) : bool :=
  match normalize (Imagename d) with
  | PStr s => String.eqb s k
  | _ => false
  end.

Definition rows_of (k : string) (ds : list DetectionRow) : list DetectionRow :=
  filter (has_id k) ds.

(** The record of one group. *)
Definition group_record (rows : list DetectionRow) : pyobj :=
  PDict [ ("bbox", PList (map bbox_of rows));
          ("Species", PList (map Species rows));
          ("Confidence", PList (map Confidence rows)) ].

Definition image_ids (ds : list DetectionRow) : list string :=
  flat_map (fun d => key_of (normalize (Imagename d))) ds.

(** The text of the identifier of a row, when it is text. *)
Definition is_text (o : pyobj) : Prop := exists s, o = PStr s.

(** Order of the keys: [str] comparison. *)
Definition str_lt : string -> string -> Prop := String_as_OT.lt.

(** The items of the returned mapping, in enumeration order. *)
Definition groups (ds : list DetectionRow) : list (string * pyobj) :=
  map (fun k => (k, group_record (rows_of k ds))) (sorted_unique (image_ids ds)).

(** ** The host application, the file system and the network *)

(** [QgsMapLayer.LayerType] *)
Inductive LayerType : Type :=
| VectorLayer
| RasterLayer
| PluginLayer
| MeshLayer
| VectorTileLayer
| AnnotationLayer
| PointCloudLayer
| GroupLayer.

(** What the module reads from a map layer. *)
Record QgsMapLayer : Type := mkLayer {
  layer_name : string;                      (* [layer.name()] *)
  layer_type : LayerType;                   (* [layer.type()] *)
  geometryType_name : string;               (* [layer.geometryType().name] *)
  layer_fields : list (string * string);    (* [field.name()], [field.typeName()] *)
  featureCount : Z;                         (* [layer.featureCount()] *)
  crs_authid : string;                      (* [layer.crs().authid()] *)
  xMinimum : float;
  xMaximum : float;
  yMinimum : float;
  yMaximum : float;                         (* [layer.extent()] *)
  layer_source : string                     (* [layer.source()] *)
}.

(** The answer of [requests.post]; [json] is the body parsed as JSON, when
    it is JSON. *)
Record Response : Type := mkResponse {
  status_code : Z;
  text : string;
  json : option pyobj
}.

(** A layer of an OGR data source. *)
Record OgrLayer : Type := mkOgrLayer {
  GetName : string;
  GetGeomType : Z;
  schema : list string;
  features : list string
}.

(** The status [QgsVectorFileWriter.writeAsVectorFormat] returns, and its
    value for success. *)
Definition WriterError : Type := Z.
Definition NoError : WriterError := 0%Z.

(** How the world answers the calls the module makes. *)
Record World : Type := mkWorld {
  writeAsVectorFormat : QgsMapLayer -> string -> string -> WriterError;
  path_join : string -> string -> string;          (* [os.path.join] *)
  NamedTemporaryFile : string -> string;           (* suffix to file name *)
  uuid4_hex : string;
  read : string -> option string;                  (* [open(path).read()] *)
  GetDriverByName : string -> bool;                (* the driver is there *)
  driver_Open : string -> bool;                    (* the data source opens *)
  ogr_Open : string -> option (list OgrLayer);
  CreateDataSource : string -> bool;
  system : string -> Z;                            (* [os.system] *)
  post : string -> string -> option Response       (* url, data *)
}.

(** What the module does to the world, in order. *)
Inductive event : Type :=
| EvWriteVector (fileName driverName : string)
| EvTempFile (name : string)
| EvRead (path : string)
| EvRemove (path : string)
| EvSystem (cmd : string)
| EvPrint (msg : string)
| EvCreateLayer (name : string) (geom_type : Z)
| EvCreateFields (fields : list string)
| EvCreateFeature (feature : string)
| EvPost (url data : string).

(** A computation: the events so far, and a value or a raised exception. *)
Definition io (A : Type) : Type := (list event * result A)%type.

Definition ret {A : Type} (a : A) : io A := ([], Ok a).

Definition raise {A : Type} (e : exn) : io A := ([], Raise e).

Definition emit (ev : event) : io unit := ([ev], Ok tt).

Definition io_bind {A B : Type} (m : io A) (k : A -> io B) : io B :=
  match m with
  | (t, Ok a) => (t ++ fst (k a), snd (k a))
  | (t, Raise e) => (t, Raise e)
  end.

Notation "'let!' x ':=' m 'in' k" := (io_bind m (fun x => k))
  (at level 10, x name, m at level 100, k at level 200).

Fixpoint for_each {A : Type} (body : A -> io unit) (l : list A) : io unit :=
  match l with
  | [] => ret tt
  | x :: l' => let! _ := body x in for_each body l'
  end.

Definition trace {A : Type} (m : io A) : list event := fst m.
Definition outcome {A : Type} (m : io A) : result A := snd m.

(** The calls, each with its event. *)
Definition call_writer (w : World) (layer : QgsMapLayer) (fileName driverName : string)
  : io WriterError :=
  let! _ := emit (EvWriteVector fileName driverName) in
  ret (writeAsVectorFormat w layer fileName driverName).

Definition new_temp_file (w : World) (suffix : string) : io string :=
  let! _ := emit (EvTempFile (NamedTemporaryFile w suffix)) in
  ret (NamedTemporaryFile w suffix).

Definition open_read (w : World) (path : string) : io string :=
  let! _ := emit (EvRead path) in
  match read w path with
  | Some data => ret data
  | None => raise (OSError path)
  end.

Definition os_remove (path : string) : io unit := emit (EvRemove path).

Definition os_system (w : World) (cmd : string) : io Z :=
  let! _ := emit (EvSystem cmd) in
  ret (system w cmd).

Definition requests_post (w : World) (url data : string) : io Response :=
  let! _ := emit (EvPost url data) in
  match post w url data with
  | Some response => ret response
  | None => raise ConnectionError
  end.

Definition response_json (response : Response) : io pyobj :=
  match json response with
  | Some j => ret j
  | None => raise JSONDecodeError
  end.

(** [' '.join(words)] *)
Fixpoint join_spaces (words : list string) : string :=
  match words with
  | [] => ""
  | [x] => x
  | x :: rest => x ++ " " ++ join_spaces rest
  end%string.

(** The last lines of the three upload functions. *)
Definition api_response (response : Response) : io pyobj :=
  if (status_code response =? 200)%Z
  then
    let! body := response_json response in
    ret (PDict [ ("success", PStr "Layer successfully sent to the API");
                 ("response", body) ])
  else
    ret (PDict [ ("error", PStr ("Failed to send GeoJSON to API. Status code: "
                                  ++ str_of_int (status_code response)));
                 ("response", PStr (text response)) ]).

(** ** [get_layer_info] *)

Definition get_layer_info (layer : option QgsMapLayer) : io pyobj :=
  match layer with
  | None => ret (PDict [("error", PStr "No active layer selected")])
  | Some layer =>
      let layer_info := [] in
      let layer_info := setitem layer_info "name" (PStr (layer_name layer)) in
      let layer_info :=
        match layer_type layer with
        | VectorLayer =>
            let layer_info := setitem layer_info "type" (PStr "vector") in
            let layer_info :=
              setitem layer_info "geometry_type" (PStr (geometryType_name layer)) in
            let fields_info :=
              fold_left (fun fields_info field =>
                           setitem fields_info (fst field) (PStr (snd field)))
                        (layer_fields layer) [] in
            let layer_info := setitem layer_info "fields" (PDict fields_info) in
            setitem layer_info "feature_count" (PInt (featureCount layer))
        | RasterLayer => setitem layer_info "type" (PStr "raster")
        | _ => layer_info
        end in
      let layer_info := setitem layer_info "crs" (PStr (crs_authid layer)) in
      let layer_info :=
        setitem layer_info "extent"
                (PDict [ ("xmin", PFloat (xMinimum layer));
                         ("xmax", PFloat (xMaximum layer));
                         ("ymin", PFloat (yMinimum layer));
                         ("ymax", PFloat (yMaximum layer)) ]) in
      let layer_info := setitem layer_info "data_source" (PStr (layer_source layer)) in
      ret (PDict layer_info)
  end.

(** ** The export and upload functions *)

(** [not layer or layer.type() != QgsMapLayer.VectorLayer] *)
Definition not_a_vector_layer (layer : option QgsMapLayer) : bool :=
  match layer with
  | None => true
  | Some l => match layer_type l with
              | VectorLayer => false
              | _ => true
              end
  end.

Definition no_vector_layer : pyobj :=
  PDict [("error", PStr "No active vector layer selected")].

(** The [SaveVectorOptions] object the function builds is not passed to the
    writer and is left out. *)
Definition export_layer_to_geojson (w : World) (layer : option QgsMapLayer)
           (output_path : string) : io pyobj :=
  match layer with
  | Some l =>
      if not_a_vector_layer layer then ret no_vector_layer
      else
        let output_file := path_join w output_path (layer_name l ++ ".geojson") in
        let! error := call_writer w l output_file "GeoJSON" in
        if (error =? NoError)%Z
        then ret (PDict [("success",
                          PStr ("Layer exported successfully to " ++ output_file))])
        else ret (PDict [("error",
                          PStr ("Failed to export layer. Error code: "
                                ++ str_of_int error))])
  | None => ret no_vector_layer
  end.

Definition send_layer_as_geojson (w : World) (layer : option QgsMapLayer)
           (api_endpoint : string) : io pyobj :=
  match layer with
  | Some l =>
      if not_a_vector_layer layer then ret no_vector_layer
      else
        let! temp_file := new_temp_file w ".geojson" in
        let! error := call_writer w l temp_file "GeoJSON" in
        let! _ := (if (error =? NoError)%Z
                   then emit (EvPrint "success again!")
                   else ret tt) in
        let! geojson_data := open_read w temp_file in
        let! _ := os_remove temp_file in
        let! response := requests_post w api_endpoint geojson_data in
        api_response response
  | None => ret no_vector_layer
  end.

(** The dict [export_options] is not used after it is built and is left
    out. *)
Definition send_layer_as_geojson_using_gdal_ (w : World) (layer : option QgsMapLayer)
           (api_endpoint : string) : io pyobj :=
  match layer with
  | Some l =>
      if not_a_vector_layer layer then ret no_vector_layer
      else
        let! temp_file := new_temp_file w ".gpkg" in
        let! error := call_writer w l temp_file "GPKG" in
        if negb (error =? NoError)%Z
        then
          let! _ := os_remove temp_file in
          ret (PDict [("error",
                       PStr ("Failed to export layer to GPKG. Error code: "
                             ++ str_of_int error))])
        else if negb (GetDriverByName w "GPKG")
        then
          let! _ := os_remove temp_file in
          ret (PDict [("error", PStr "GDAL does not support GeoPackage format")])
        else if negb (driver_Open w temp_file)
        then
          let! _ := os_remove temp_file in
          ret (PDict [("error", PStr "Failed to open the GeoPackage file with OGR")])
        else
          let! geojson_temp_file := new_temp_file w ".geojson" in
          let ogr2ogr_cmd :=
            ["ogr2ogr"; "-f"; "GeoJSON"; geojson_temp_file; temp_file] in
          let! result := os_system w (join_spaces ogr2ogr_cmd) in
          if negb (result =? 0)%Z
          then
            let! _ := os_remove temp_file in
            let! _ := os_remove geojson_temp_file in
            ret (PDict [("error",
                         PStr "Failed to convert GeoPackage to GeoJSON using ogr2ogr")])
          else
            let! geojson_data := open_read w geojson_temp_file in
            let! _ := os_remove temp_file in
            let! _ := os_remove geojson_temp_file in
            let! response := requests_post w api_endpoint geojson_data in
            api_response response
  | None => ret no_vector_layer
  end.

(** ** [convert_to_geojson_using_gdal] *)

(** The names the module binds at its top level: the imports and the
    functions.  No builtin is called [api_endpoint]. *)
Definition ioutils_globals : list (string * pyobj) :=
  map (fun n => (n, PObj n))
      [ "np"; "pd"; "QgsMapLayer"; "QgsWkbTypes"; "QgsVectorFileWriter";
        "QgsCoordinateTransformContext"; "QgsProject"; "QgsVectorLayerExporter";
        "json"; "requests"; "StringIO"; "tempfile"; "os"; "ogr"; "osr"; "uuid";
        "bbox_parser"; "parse_annotation"; "get_layer_info";
        "export_layer_to_geojson"; "send_layer_as_geojson";
        "send_layer_as_geojson_using_gdal_"; "convert_to_geojson_using_gdal" ].

(** The parameters of [convert_to_geojson_using_gdal] and the names it
    assigns: its local scope. *)
Definition convert_locals : list string :=
  [ "input_path"; "output_path"; "input_ds"; "geojson_driver"; "output_ds";
    "i"; "input_layer"; "output_layer"; "feature"; "f"; "geojson_data";
    "headers"; "response" ].

(** Reading a name that is not local: the module's globals are searched. *)
Definition load_global (globals : list (string * pyobj)) (name : string) : io pyobj :=
  match lookup name globals with
  | Some v => ret v
  | None => raise (NameError name)
  end.

Definition copy_layer (input_layer : OgrLayer) : io unit :=
  let! _ := emit (EvCreateLayer (GetName input_layer) (GetGeomType input_layer)) in
  let! _ := emit (EvCreateFields (schema input_layer)) in
  for_each (fun feature => emit (EvCreateFeature feature)) (features input_layer).

(** [api_endpoint] is read as a global: the function does not assign it.
    Deleting the two data sources flushes the output and has no event of its
    own. *)
Definition convert_to_geojson_using_gdal (w : World) (globals : list (string * pyobj))
           (input_path : string) (output_path : option string) : io pyobj :=
  let output_path :=
    match output_path with
    | None => (uuid4_hex w ++ ".geojson")%string
    | Some p => p
    end in
  match ogr_Open w input_path with
  | None => ret (PStr ("Failed to open input file: " ++ input_path))
  | Some input_ds =>
      if negb (GetDriverByName w "GeoJSON")
      then ret (PStr "GDAL GeoJSON driver not found")
      else if negb (CreateDataSource w output_path)
      then ret (PStr ("Failed to create output GeoJSON file: " ++ output_path))
      else
        let! _ := for_each copy_layer input_ds in
        let! geojson_data := open_read w output_path in
        let! _ := os_remove output_path in
        let! api_endpoint := load_global globals "api_endpoint" in
        match api_endpoint with
        | PStr url =>
            let! response := requests_post w url geojson_data in
            api_response response
        | _ => raise RequestException
        end
  end.

(** ** Sample inputs *)

Definition header_lines : list csv_line :=
  [ [PStr "# 1: Detection or Track-id"; PStr "2: Video or Image Identifier"];
    [PStr "# metadata"] ].

Definition data_line (image : string) (x1 y1 x2 y2 : Z) (species : string)
  : csv_line :=
  [ PInt 0; PStr image; PInt 0; PInt x1; PInt y1; PInt x2; PInt y2;
    PFloat one; PInt 0; PStr species; PFloat one ].

(** The example of the specification: two rows of one image. *)
Definition example_file (h1 h2 : csv_line)
           (det1 frame1 dconf1 len1 conf1 det2 frame2 dconf2 len2 conf2 : pyobj)
  : list csv_line :=
  [ h1; h2;
    [ det1; PStr "img1.jpg"; frame1; PInt 0; PInt 0; PInt 10; PInt 10;
      dconf1; len1; PStr "tuna"; conf1 ];
    [ det2; PStr "img1.jpg"; frame2; PInt 5; PInt 5; PInt 15; PInt 15;
      dconf2; len2; PStr "shark"; conf2 ] ].

(** What the example returns. *)
Definition example_result (conf1 conf2 : pyobj) : pyobj :=
  PDict [ ("img1",
           PDict [ ("bbox",
                    PList [ PDict [("bbox",
                                    PList [ PInt 0; PInt 10; PInt 10; PInt 10;
                                            PInt 10; PInt 0; PInt 0; PInt 0 ])];
                            PDict [("bbox",
                                    PList [ PInt 5; PInt 15; PInt 15; PInt 15;
                                            PInt 15; PInt 5; PInt 5; PInt 5 ])] ]);
                   ("Species", PList [PStr "tuna"; PStr "shark"]);
                   ("Confidence", PList [conf1; conf2]) ]) ].

(** The result with every [bbox] entry a bare list of eight numbers. *)
Definition example_result_bare_lists (conf1 conf2 : pyobj) : pyobj :=
  PDict [ ("img1",
           PDict [ ("bbox",
                    PList [ PList [ PInt 0; PInt 10; PInt 10; PInt 10;
                                    PInt 10; PInt 0; PInt 0; PInt 0 ];
                            PList [ PInt 5; PInt 15; PInt 15; PInt 15;
                                    PInt 15; PInt 5; PInt 5; PInt 5 ] ]);
                   ("Species", PList [PStr "tuna"; PStr "shark"]);
                   ("Confidence", PList [conf1; conf2]) ]) ].

Definition simple_example_file : list csv_line :=
  example_file [PStr "# header"] [PStr "# metadata"]
               (PInt 0) (PInt 0) (PFloat one) (PInt 0) (PFloat one)
               (PInt 1) (PInt 0) (PFloat one) (PInt 0) (PFloat one).

(** Rows of two images, the later name first. *)
Definition two_image_file : list csv_line :=
  header_lines ++
  [ data_line "b.jpg" 0 0 10 10 "tuna";
    data_line "a.jpg" 5 5 15 15 "shark";
    data_line "b.jpg" 1 2 3 4 "cod" ].

Definition two_image_rows : list DetectionRow :=
  Eval cbv in
    match detections two_image_file with
    | Ok ds => ds
    | Raise _ => []
    end.







Definition sample_layer : QgsMapLayer :=
  {| layer_name := "sites";
     layer_type := VectorLayer;
     geometryType_name := "Point";
     layer_fields := [("id", "Integer64"); ("name", "String")];
     featureCount := 3;
     crs_authid := "EPSG:4326";
     xMinimum := zero;
     xMaximum := one;
     yMinimum := zero;
     yMaximum := one;
     layer_source := "/data/sites.shp" |}.

(** A world where the writer answers [status] and the endpoint answers
    [response]. *)
Definition sample_world (status : WriterError) (response : Response) : World :=
  {| writeAsVectorFormat := fun _ _ _ => status;
     path_join := fun a b => (a ++ "/" ++ b)%string;
     NamedTemporaryFile := fun suffix => ("/tmp/tmpk3v9" ++ suffix)%string;
     uuid4_hex := "6f1c2d";
     read := fun _ => Some "{}";
     GetDriverByName := fun _ => true;
     driver_Open := fun _ => true;
     ogr_Open := fun _ => Some [ {| GetName := "sites"; GetGeomType := 1;
                                    schema := ["id"]; features := ["f1"; "f2"] |} ];
     CreateDataSource := fun _ => true;
     system := fun _ => 0%Z;
     post := fun _ _ => Some response |}.

Definition ok_response : Response :=
  {| status_code := 200; text := "{}"; json := Some (PDict []) |}.

Definition not_found_response : Response :=
  {| status_code := 404; text := "Not Found"; json := None |}.

(** The uploads among the events. *)
Definition is_post (ev : event) : bool :=
  match ev with
  | EvPost _ _ => true
  | _ => false
  end.

(** The outcome [res] is the one the code gives for the answer [response]:
    with status 200 the success mapping with the parsed body when the body
    is JSON and the decoding error of [response.json()] when it is not, with
    another status the error mapping with the status code and the body
    text. *)
Definition handles_response (res : result pyobj) (response : Response) : Prop :=
  (status_code response = 200%Z ->
   forall body, json response = Some body ->
     res = Ok (PDict [ ("success", PStr "Layer successfully sent to the API");
                       ("response", body) ])) /\
  (status_code response = 200%Z -> json response = None ->
   res = Raise JSONDecodeError) /\
  (status_code response <> 200%Z ->
   res = Ok (PDict [ ("error",
                      PStr ("Failed to send GeoJSON to API. Status code: "
                            ++ str_of_int (status_code response)));
                     ("response", PStr (text response)) ])).

(** The first of [cols] that the row [row] has no value for. *)
Definition first_missing (row : Series) (cols : list string) : option string :=
  find (fun c => match lookup c row with
                 | Some _ => false
                 | None => true
                 end) cols.

(** The number of entries of the [bbox] list of a group record. *)
Definition group_size (g : pyobj) : nat :=
  match lookup "bbox" (dict_items g) with
  | Some (PList l) => List.length l
  | _ => 0%nat
  end.

(** The mapping [v] has the key [k]. *)
Definition has_key (k : string) (v : pyobj) : bool :=
  match lookup k (dict_items v) with
  | Some _ => true
  | None => false
  end.

(** The events of copying one layer: the layer, its fields, then its
    features in order. *)
Definition copy_events (input_layer : OgrLayer) : list event :=
  EvCreateLayer (GetName input_layer) (GetGeomType input_layer)
  :: EvCreateFields (schema input_layer)
  :: map EvCreateFeature (features input_layer).

Definition is_remove (ev : event) : bool :=
  match ev with
  | EvRemove _ => true
  | _ => false
  end.

(** The globals of the module with [api_endpoint] bound to [url] as well. *)
Definition globals_with_endpoint (url : string) : list (string * pyobj) :=
  ("api_endpoint", PStr url) :: ioutils_globals.

(** A layer that is not a vector layer. *)
Definition sample_raster : QgsMapLayer :=
  {| layer_name := "dem";
     layer_type := RasterLayer;
     geometryType_name := "";
     layer_fields := [];
     featureCount := 0;
     crs_authid := "EPSG:32633";
     xMinimum := zero;
     xMaximum := one;
     yMinimum := zero;
     yMaximum := one;
     layer_source := "/data/dem.tif" |}.

(** A world like [sample_world] whose files cannot be read. *)
Definition unreadable_world (status : WriterError) (response : Response) : World :=
  {| writeAsVectorFormat := writeAsVectorFormat (sample_world status response);
     path_join := path_join (sample_world status response);
     NamedTemporaryFile := NamedTemporaryFile (sample_world status response);
     uuid4_hex := uuid4_hex (sample_world status response);
     read := fun _ => None;
     GetDriverByName := GetDriverByName (sample_world status response);
     driver_Open := driver_Open (sample_world status response);
     ogr_Open := ogr_Open (sample_world status response);
     CreateDataSource := CreateDataSource (sample_world status response);
     system := system (sample_world status response);
     post := post (sample_world status response) |}.

(** A world like [sample_world] where [ogr2ogr] ends with [code] and the
    endpoint may be out of reach. *)
Definition conversion_world (code : Z) (answer : option Response) : World :=
  {| writeAsVectorFormat := fun _ _ _ => NoError;
     path_join := path_join (sample_world NoError ok_response);
     NamedTemporaryFile := NamedTemporaryFile (sample_world NoError ok_response);
     uuid4_hex := uuid4_hex (sample_world NoError ok_response);
     read := read (sample_world NoError ok_response);
     GetDriverByName := fun _ => true;
     driver_Open := fun _ => true;
     ogr_Open := ogr_Open (sample_world NoError ok_response);
     CreateDataSource := fun _ => true;
     system := fun _ => code;
     post := fun _ _ => answer |}.

Definition plain_text_response : Response :=
  {| status_code := 200; text := "OK"; json := None |}.

(** Rows of one image, one of them without identifier. *)
Definition missing_id_file : list csv_line :=
  header_lines ++
  [ data_line "a.jpg" 0 0 10 10 "tuna";
    [ PInt 0; NaN; PInt 0; PInt 1; PInt 2; PInt 3; PInt 4;
      PFloat one; PInt 0; PStr "cod"; PFloat one ];
    data_line "a" 5 5 15 15 "shark" ].

Definition missing_id_rows : list DetectionRow :=
  Eval cbv in
    match detections missing_id_file with
    | Ok ds => ds
    | Raise _ => []
    end.

(** Two data rows agree on the columns that reach the result. *)
Definition same_used_columns (d d' : DetectionRow) : Prop :=
  Imagename d = Imagename d' /\
  TL_x d = TL_x d' /\ TL_y d = TL_y d' /\ BR_x d = BR_x d' /\ BR_y d = BR_y d' /\
  Species d = Species d' /\ Confidence d = Confidence d'.

(** The rows of [two_image_file] with other values in the columns
    [Detection], [Frame_Identifier], [detection_Confidence] and
    [Target_Length]. *)
Definition relabelled_file : list csv_line :=
  header_lines ++
  map (fun l => match l with
                | [det; image; frame; x1; y1; x2; y2; dconf; len; species; conf] =>
                    [ PStr "track"; image; PInt 9; x1; y1; x2; y2;
                      PInt 0; NaN; species; conf ]
                | _ => l
                end)
      (skipn 2 two_image_file).

Definition relabelled_rows : list DetectionRow :=
  Eval cbv in
    match detections relabelled_file with
    | Ok ds => ds
    | Raise _ => []
    end.

(** * Properties *)

(** ** General lemmas *)

Section Lists.

Context {A B C : Type}.

Lemma mapM_ok (f : A -> result B) (g : A -> B) (l : list A) :
  (forall x, In x l -> f x = Ok (g x)) -> mapM f l = Ok (map g l).
Proof.
  induction l as [|x l IH]; intros H; simpl; [reflexivity|].
  rewrite (H x (or_introl eq_refl)); simpl.
  rewrite IH by (intros y Hy; apply H; right; exact Hy).
  reflexivity.
Qed.

Lemma mapM_map_ok (f : B -> result C) (h : A -> B) (g : A -> C)
      (l : list A) :
  (forall x, f (h x) = Ok (g x)) -> mapM f (map h l) = Ok (map g l).
Proof.
  intros H. induction l as [|x l IH]; simpl; [reflexivity|].
  rewrite H; simpl. rewrite IH. reflexivity.
Qed.

Lemma filter_map_comm (p : B -> bool) (f : A -> B) (l : list A) :
  filter p (map f l) = map f (filter (fun x => p (f x)) l).
Proof.
  induction l as [|x l IH]; simpl; [reflexivity|].
  destruct (p (f x)); simpl; rewrite IH; reflexivity.
Qed.

Lemma flat_map_map_comm (g : B -> list C) (f : A -> B) (l : list A) :
  flat_map g (map f l) = flat_map (fun x => g (f x)) l.
Proof.
  induction l as [|x l IH]; simpl; [reflexivity|]. rewrite IH. reflexivity.
Qed.



End Lists.

(** ** Small checks of the embedding *)

Example str_replace_abc : str_replace "abcabc" "bc" "X" = "aXaX".
Proof. reflexivity. Qed.

Example str_replace_overlap : str_replace "aaa" "aa" "b" = "ba".
Proof. reflexivity. Qed.

Example str_replace_empty_old : str_replace "ab" "" "-" = "-a-b-".
Proof. reflexivity. Qed.

Example str_of_int_404 : str_of_int 404 = "404".
Proof. reflexivity. Qed.


Lemma In_insert_key (k x : string) (l : list string) :
  In x (insert_key k l) <-> x = k \/ In x l.
Proof.
  induction l as [|y l IH]; simpl.
  - intuition.
  - destruct (String_as_OT.compare_spec k y) as [E|L|G]; simpl.
    + hnf in E. subst y. intuition.
    + intuition.
    + rewrite IH. intuition.
Qed.

Lemma In_sorted_unique (x : string) (l : list string) :
  In x (sorted_unique l) <-> In x l.
Proof.
  induction l as [|y l IH]; simpl; [reflexivity|].
  rewrite In_insert_key, IH. intuition.
Qed.

Lemma HdRel_insert_key (a k : string) (l : list string) :
  HdRel str_lt a l -> str_lt a k -> HdRel str_lt a (insert_key k l).
Proof.
  intros H Hk. destruct l as [|y l]; simpl.
  - constructor. exact Hk.
  - inversion H; subst.
    destruct (String_as_OT.compare k y); constructor; assumption.
Qed.

Lemma Sorted_insert_key (k : string) (l : list string) :
  Sorted str_lt l -> Sorted str_lt (insert_key k l).
Proof.
  induction l as [|y l IH]; intros H; simpl.
  - repeat constructor.
  - inversion H; subst.
    destruct (String_as_OT.compare_spec k y) as [E|L|G].
    + exact H.
    + constructor; [exact H | constructor; exact L].
    + constructor; [apply IH; assumption|].
      apply HdRel_insert_key; assumption.
Qed.

Lemma Sorted_sorted_unique (l : list string) : Sorted str_lt (sorted_unique l).
Proof.
  induction l as [|y l IH]; simpl; [constructor|].
  apply Sorted_insert_key. exact IH.
Qed.

Lemma str_lt_trans : Relations_1.Transitive str_lt.
Proof.
  intros x y z. apply (@StrictOrder_Transitive _ _ String_as_OT.lt_strorder).
Qed.

Lemma str_lt_irrefl (x : string) : ~ str_lt x x.
Proof. apply (@StrictOrder_Irreflexive _ _ String_as_OT.lt_strorder). Qed.

Lemma StronglySorted_sorted_unique (l : list string) :
  StronglySorted str_lt (sorted_unique l).
Proof.
  apply Sorted_StronglySorted; [exact str_lt_trans | apply Sorted_sorted_unique].
Qed.

Lemma StronglySorted_NoDup (l : list string) :
  StronglySorted str_lt l -> NoDup l.
Proof.
  induction 1 as [|x l Hs IH Hall]; constructor; [|exact IH].
  intros Hin. rewrite Forall_forall in Hall.
  exact (str_lt_irrefl x (Hall x Hin)).
Qed.

(** A strictly increasing list is determined by its elements. *)
Lemma StronglySorted_ext (l1 l2 : list string) :
  StronglySorted str_lt l1 -> StronglySorted str_lt l2 ->
  (forall x, In x l1 <-> In x l2) -> l1 = l2.
Proof.
  intros H1. revert l2. induction H1 as [|a l1 Hs1 IH Ha]; intros l2 H2 Hext.
  - destruct l2 as [|b l2]; [reflexivity|].
    destruct (proj2 (Hext b) (or_introl eq_refl)).
  - destruct H2 as [|b l2 Hs2 Hb].
    + destruct (proj1 (Hext a) (or_introl eq_refl)).
    + rewrite Forall_forall in Ha, Hb.
      assert (E : a = b).
      { destruct (proj1 (Hext a) (or_introl eq_refl)) as [E|Hin]; [auto|].
        destruct (proj2 (Hext b) (or_introl eq_refl)) as [E|Hin']; [auto|].
        exfalso. apply (str_lt_irrefl a).
        apply (str_lt_trans a b a); auto. }
      subst b. f_equal. apply IH; [exact Hs2|].
      intros x. split; intros Hx.
      * destruct (proj1 (Hext x) (or_intror Hx)) as [E|Hin]; [|exact Hin].
        subst x. exfalso. exact (str_lt_irrefl a (Ha a Hx)).
      * destruct (proj2 (Hext x) (or_intror Hx)) as [E|Hin]; [|exact Hin].
        subst x. exfalso. exact (str_lt_irrefl a (Hb a Hx)).
Qed.

Lemma sorted_unique_ext (l1 l2 : list string) :
  (forall x, In x l1 <-> In x l2) -> sorted_unique l1 = sorted_unique l2.
Proof.
  intros H. apply StronglySorted_ext; try apply StronglySorted_sorted_unique.
  intros x. rewrite !In_sorted_unique. apply H.
Qed.


Lemma frame_setitem_map {A : Type} (h : A -> Series) (v : A -> pyobj)
      (col : string) (l : list A) :
  frame_setitem (map h l) col (map v l) = map (fun d => setitem (h d) col (v d)) l.
Proof.
  induction l as [|x l IH]; simpl; [reflexivity|]. rewrite IH. reflexivity.
Qed.


(** ** The table, row by row *)

Lemma fit_line_length (width ncols : nat) (l : csv_line) :
  (List.length l <= width)%nat -> (ncols <= width)%nat ->
  List.length (fit_line width ncols l) = ncols.
Proof.
  intros Hl Hn. unfold fit_line.
  rewrite length_skipn, length_app, repeat_length. lia.
Qed.

Lemma table_width_ge (lines : list csv_line) (ncols : nat) :
  (ncols <= table_width lines ncols)%nat.
Proof. destruct lines; simpl; lia. Qed.

Lemma data_cells_length (file : list csv_line) (skiprows : list nat) (ncols : nat)
      (cells : list csv_line) :
  data_cells file skiprows ncols = Ok cells ->
  Forall (fun c => List.length c = ncols) cells.
Proof.
  unfold data_cells.
  destruct (forallb _ _) eqn:Hall; [|discriminate].
  intros H; injection H as <-.
  rewrite forallb_forall in Hall.
  apply Forall_forall. intros c Hc.
  apply in_map_iff in Hc. destruct Hc as [l [<- Hl]].
  apply fit_line_length; [|apply table_width_ge].
  apply Nat.leb_le. apply Hall. exact Hl.
Qed.

Lemma combine_names (cells : csv_line) :
  List.length cells = 11%nat -> combine names cells = series_of (row_of_cells cells).
Proof.
  intros H.
  do 11 (destruct cells as [|? cells]; [discriminate H|]).
  destruct cells; [reflexivity | discriminate H].
Qed.

(** [read_csv] gives the data rows, each labelled with the eleven names. *)
Lemma read_csv_detections (annotation_file : list csv_line) :
  read_csv annotation_file [0; 1]%nat names
  = (ds <- detections annotation_file ;; Ok (map series_of ds)).
Proof.
  unfold read_csv, detections. change (List.length names) with 11%nat.
  destruct (data_cells annotation_file [0; 1]%nat 11) as [cells|e] eqn:Hc;
    cbn [bind]; [|reflexivity].
  rewrite map_map. apply (f_equal Ok). apply map_ext_in. intros c Hin.
  apply combine_names.
  apply data_cells_length in Hc. rewrite Forall_forall in Hc. auto.
Qed.

(** [imageannotation] before the grouping: every data row with its
    normalized identifier and its [bbox] value. *)
Lemma annotation_frame_spec (annotation_file : list csv_line) :
  annotation_frame annotation_file
  = (ds <- detections annotation_file ;;
     if has_str_accessor (map Imagename ds)
     then Ok (map annotated ds)
     else Raise str_accessor_error).
Proof.
  unfold annotation_frame. rewrite read_csv_detections.
  destruct (detections annotation_file) as [ds|e]; simpl; [|reflexivity].
  unfold frame_getitem at 1.
  rewrite (mapM_map_ok _ series_of Imagename) by reflexivity. simpl.
  unfold Series_str_replace.
  destruct (has_str_accessor (map Imagename ds)); simpl; [|reflexivity].
  rewrite map_map, frame_setitem_map.
  unfold frame_apply.
  rewrite (mapM_map_ok _ _ bbox_of) by reflexivity. simpl.
  rewrite frame_setitem_map. reflexivity.
Qed.

Lemma agg_list_annotated (rows : list DetectionRow) :
  agg_list (map annotated rows) ["bbox"; "Species"; "Confidence"]
  = Ok [ ("bbox", PList (map bbox_of rows));
         ("Species", PList (map Species rows));
         ("Confidence", PList (map Confidence rows)) ].
Proof.
  unfold agg_list, frame_getitem. simpl.
  rewrite (mapM_map_ok _ annotated bbox_of) by reflexivity. simpl.
  rewrite (mapM_map_ok _ annotated Species) by reflexivity. simpl.
  rewrite (mapM_map_ok _ annotated Confidence) by reflexivity. simpl.
  reflexivity.
Qed.

Lemma groupby_annotated (ds : list DetectionRow) :
  groupby_agg_to_dict (map annotated ds) "Imagename" ["bbox"; "Species"; "Confidence"]
  = Ok (PDict (map (fun k => (k, group_record (rows_of k ds)))
                   (sorted_unique (image_ids ds)))).
Proof.
  unfold groupby_agg_to_dict, frame_getitem.
  rewrite (mapM_map_ok _ annotated (fun d => normalize (Imagename d)))
    by reflexivity.
  simpl. rewrite flat_map_map_comm. fold (image_ids ds).
  rewrite (mapM_ok _ (fun k => (k, group_record (rows_of k ds)))); [reflexivity|].
  intros k _. rewrite filter_map_comm.
  change (filter (fun x => in_group "Imagename" k (annotated x)) ds)
    with (rows_of k ds).
  rewrite agg_list_annotated. reflexivity.
Qed.

(** What [parse_annotation] returns, in terms of the data rows. *)
Lemma parse_annotation_spec (annotation_file : list csv_line) :
  parse_annotation annotation_file
  = (ds <- detections annotation_file ;;
     if has_str_accessor (map Imagename ds)
     then Ok (PDict (map (fun k => (k, group_record (rows_of k ds)))
                         (sorted_unique (image_ids ds))))
     else Raise str_accessor_error).
Proof.
  unfold parse_annotation. rewrite annotation_frame_spec.
  destruct (detections annotation_file) as [ds|e]; simpl; [|reflexivity].
  destruct (has_str_accessor (map Imagename ds)); simpl; [|reflexivity].
  apply groupby_annotated.
Qed.

Lemma keys_groups (ds : list DetectionRow) :
  map fst (groups ds) = sorted_unique (image_ids ds).
Proof.
  unfold groups. rewrite map_map. simpl. apply map_id.
Qed.

Lemma In_groups (k : string) (g : pyobj) (ds : list DetectionRow) :
  In (k, g) (groups ds) ->
  In k (sorted_unique (image_ids ds)) /\ g = group_record (rows_of k ds).
Proof.
  unfold groups. rewrite in_map_iff. intros [k' [E Hin]].
  injection E as -> <-. split; [exact Hin | reflexivity].
Qed.

Lemma In_image_ids (k : string) (ds : list DetectionRow) :
  In k (image_ids ds) <-> exists d, In d ds /\ normalize (Imagename d) = PStr k.
Proof.
  unfold image_ids. rewrite in_flat_map. split.
  - intros [d [Hd Hk]]. exists d. split; [exact Hd|].
    destruct (normalize (Imagename d)); simpl in Hk; try contradiction.
    destruct Hk as [->|[]]. reflexivity.
  - intros [d [Hd Hk]]. exists d. split; [exact Hd|].
    rewrite Hk. simpl. left. reflexivity.
Qed.

Lemma has_id_true (k : string) (d : DetectionRow) :
  has_id k d = true <-> normalize (Imagename d) = PStr k.
Proof.
  unfold has_id. destruct (normalize (Imagename d)); try (split; congruence).
  rewrite String.eqb_eq. split; congruence.
Qed.

Lemma In_rows_of (k : string) (d : DetectionRow) (ds : list DetectionRow) :
  In d (rows_of k ds) <-> In d ds /\ normalize (Imagename d) = PStr k.
Proof.
  unfold rows_of. rewrite filter_In, has_id_true. reflexivity.
Qed.

Lemma text_ids_have_str_accessor (ds : list DetectionRow) :
  Forall (fun d => is_text (Imagename d)) ds ->
  has_str_accessor (map Imagename ds) = true.
Proof.
  intros H. destruct H as [|d ds [s Hs] _]; [reflexivity|].
  simpl. rewrite Hs. reflexivity.
Qed.

Lemma parse_annotation_valid (annotation_file : list csv_line)
      (ds : list DetectionRow) :
  detections annotation_file = Ok ds ->
  Forall (fun d => is_text (Imagename d)) ds ->
  parse_annotation annotation_file = Ok (PDict (groups ds)).
Proof.
  intros Hds Htext. rewrite parse_annotation_spec, Hds. simpl.
  rewrite text_ids_have_str_accessor by exact Htext. reflexivity.
Qed.

(** ** Removing [".jpg"] *)

Lemma replace_from_no_occurrence (old new s : string) :
  occurs old s = false -> replace_from old new 0 s = s.
Proof.
  induction s as [|c s IH]; intros H; [reflexivity|].
  cbn [occurs] in H. apply orb_false_iff in H. destruct H as [Hp Hs].
  cbn [replace_from]. rewrite Hp. rewrite IH by exact Hs. reflexivity.
Qed.

(** An occurrence of [".jpg"] that starts inside [a] ends inside [a]: the
    pattern has its only ["."] in front. *)
Lemma prefix_jpg_app (a b : string) :
  a <> "" -> prefix ".jpg" (a ++ ".jpg" ++ b) = prefix ".jpg" a.
Proof.
  intros Ha. destruct a as [|c1 a]; [congruence|].
  cbn [append prefix].
  destruct (ascii_dec "." c1); [|reflexivity].
  destruct a as [|c2 a]; [reflexivity|]. cbn [append prefix].
  destruct (ascii_dec "j" c2); [|reflexivity].
  destruct a as [|c3 a]; [reflexivity|]. cbn [append prefix].
  destruct (ascii_dec "p" c3); [|reflexivity].
  destruct a as [|c4 a]; [reflexivity|]. cbn [append prefix].
  destruct (ascii_dec "g" c4); [|reflexivity].
  destruct a; reflexivity.
Qed.

Lemma prefix_length (s1 s2 : string) :
  prefix s1 s2 = true -> (String.length s1 <= String.length s2)%nat.
Proof.
  revert s1. induction s2 as [|c s2 IH]; intros [|c1 s1] H;
    cbn [prefix String.length] in *; try lia; try discriminate.
  destruct (ascii_dec c1 c); [|discriminate].
  specialize (IH s1 H). lia.
Qed.

Lemma replace_from_jpg_app (b a : string) (skip : nat) :
  (skip <= String.length a)%nat ->
  replace_from ".jpg" "" skip (a ++ ".jpg" ++ b)
  = (replace_from ".jpg" "" skip a ++ replace_from ".jpg" "" 0 b)%string.
Proof.
  revert skip. induction a as [|c a IH]; intros skip Hs.
  - assert (skip = 0%nat) as -> by (simpl in Hs; lia).
    destruct b; reflexivity.
  - destruct skip as [|k].
    + change ((String c a ++ ".jpg" ++ b)%string)
        with (String c (a ++ ".jpg" ++ b)%string).
      cbn [replace_from].
      change (String c (a ++ ".jpg" ++ b)%string)
        with ((String c a ++ ".jpg" ++ b)%string).
      rewrite prefix_jpg_app by discriminate.
      destruct (prefix ".jpg" (String c a)) eqn:Hp.
      * apply prefix_length in Hp. simpl in Hp.
        simpl (String.length ".jpg" - 1)%nat.
        rewrite IH by lia. reflexivity.
      * rewrite IH by lia. reflexivity.
    + simpl. apply IH. simpl in Hs. lia.
Qed.

(** [str.replace] takes an occurrence of [".jpg"] out wherever it stands,
    and goes on in the same way on both sides of it. *)
Lemma str_replace_jpg_app (a b : string) :
  str_replace (a ++ ".jpg" ++ b) ".jpg" ""
  = (str_replace a ".jpg" "" ++ str_replace b ".jpg" "")%string.
Proof.
  unfold str_replace. apply replace_from_jpg_app. lia.
Qed.

Lemma str_replace_jpg_none (s : string) :
  occurs ".jpg" s = false -> str_replace s ".jpg" "" = s.
Proof.
  intros H. unfold str_replace. apply replace_from_no_occurrence. exact H.
Qed.

(** ** The bounding box *)

Lemma bbox_parser_order (row : Series) (name : string) (tlx tly brx bry : pyobj) :
  lookup "TL_x" row = Some tlx -> lookup "TL_y" row = Some tly ->
  lookup "BR_x" row = Some brx -> lookup "BR_y" row = Some bry ->
  bbox_parser row columns name
  = Ok (PDict [(name, PList [tlx; bry; brx; bry; brx; tly; tlx; tly])]).
Proof.
  intros H1 H2 H3 H4. unfold bbox_parser, columns, getitem. simpl.
  rewrite H1, H2, H3, H4. reflexivity.
Qed.

(** C1.  In the frame [parse_annotation] groups, every data row carries the
    value [{"bbox": [TL_x, BR_y, BR_x, BR_y, BR_x, TL_y, TL_x, TL_y]}] made of
    its own coordinate fields in this order, whatever the fields hold; the
    [bbox] list of a returned group holds these values of the rows of the
    group. *)
Theorem bbox_coordinate_order :
  forall (annotation_file : list csv_line) (df : DataFrame),
    annotation_frame annotation_file = Ok df ->
    exists ds : list DetectionRow,
      detections annotation_file = Ok ds /\
      Forall2 (fun d row =>
                 lookup "TL_x" row = Some (TL_x d) /\
                 lookup "TL_y" row = Some (TL_y d) /\
                 lookup "BR_x" row = Some (BR_x d) /\
                 lookup "BR_y" row = Some (BR_y d) /\
                 lookup "bbox" row
                 = Some (PDict [("bbox",
                                 PList [ TL_x d; BR_y d; BR_x d; BR_y d;
                                         BR_x d; TL_y d; TL_x d; TL_y d ])]))
              ds df /\
      exists out : list (string * pyobj),
        parse_annotation annotation_file = Ok (PDict out) /\
        forall k g, In (k, g) out ->
          lookup "bbox" (dict_items g)
          = Some (PList (map (fun d =>
                                PDict [("bbox",
                                        PList [ TL_x d; BR_y d; BR_x d; BR_y d;
                                                BR_x d; TL_y d; TL_x d; TL_y d ])])
                             (rows_of k ds))).
Proof.
  intros annotation_file df H.
  pose proof (parse_annotation_spec annotation_file) as Hp.
  rewrite annotation_frame_spec in H.
  destruct (detections annotation_file) as [ds|e]; simpl in H, Hp; [|discriminate].
  destruct (has_str_accessor (map Imagename ds)); [|discriminate].
  injection H as <-. exists ds. split; [reflexivity|]. split.
  - clear Hp. induction ds as [|d ds IH]; simpl; constructor; [|exact IH].
    repeat split.
  - eexists. split; [exact Hp|].
    intros k g Hin. apply In_groups in Hin. destruct Hin as [_ ->]. reflexivity.
Qed.

Lemma bbox_coordinate_order_witness :
  exists ds : list DetectionRow,
    detections two_image_file = Ok ds /\
    Forall2 (fun d row =>
               lookup "TL_x" row = Some (TL_x d) /\
               lookup "TL_y" row = Some (TL_y d) /\
               lookup "BR_x" row = Some (BR_x d) /\
               lookup "BR_y" row = Some (BR_y d) /\
               lookup "bbox" row
               = Some (PDict [("bbox",
                               PList [ TL_x d; BR_y d; BR_x d; BR_y d;
                                       BR_x d; TL_y d; TL_x d; TL_y d ])]))
            ds (map annotated two_image_rows) /\
    exists out : list (string * pyobj),
      parse_annotation two_image_file = Ok (PDict out) /\
      forall k g, In (k, g) out ->
        lookup "bbox" (dict_items g)
        = Some (PList (map (fun d =>
                              PDict [("bbox",
                                      PList [ TL_x d; BR_y d; BR_x d; BR_y d;
                                              BR_x d; TL_y d; TL_x d; TL_y d ])])
                           (rows_of k ds))).
Proof.
  apply (bbox_coordinate_order two_image_file (map annotated two_image_rows)).
  reflexivity.
Defined.

(** ** The example *)

(** C2, as the code has it.  On the example of two rows of ["img1.jpg"], the
    result has the one key ["img1"]; its [Species] and [Confidence] lists are
    those of the two rows, and each entry of its [bbox] list is the mapping
    [{"bbox": [...]}] that [bbox_parser] returns, not a bare list. *)
Theorem example_two_rows :
  forall (h1 h2 : csv_line)
         (det1 frame1 dconf1 len1 conf1 det2 frame2 dconf2 len2 conf2 : pyobj),
    parse_annotation
      (example_file h1 h2 det1 frame1 dconf1 len1 conf1
                    det2 frame2 dconf2 len2 conf2)
    = Ok (example_result conf1 conf2).
Proof. intros. reflexivity. Qed.

(** C2, as stated, fails: the [bbox] entries are not bare lists. *)
Lemma example_bbox_entries_not_bare_lists :
  parse_annotation simple_example_file
  <> Ok (example_result_bare_lists (PFloat one) (PFloat one)).
Proof.
  intros H. vm_compute in H. discriminate H.
Qed.

(** ** The image identifier *)

(** C3.  The [Imagename] column of the frame holds, row by row, the
    identifier with [".jpg"] taken out by [str.replace].  The replacement
    takes an occurrence out wherever it stands and treats what is before and
    after it in the same way, so every occurrence goes, not only a trailing
    one; text without an occurrence is unchanged. *)
Theorem jpg_removed_everywhere :
  (forall (annotation_file : list csv_line) (df : DataFrame),
      annotation_frame annotation_file = Ok df ->
      exists ds : list DetectionRow,
        detections annotation_file = Ok ds /\
        frame_getitem df "Imagename"
        = Ok (map (fun d => match Imagename d with
                            | PStr s => PStr (str_replace s ".jpg" "")
                            | _ => NaN
                            end) ds)) /\
  (forall a b : string,
      str_replace (a ++ ".jpg" ++ b) ".jpg" ""
      = (str_replace a ".jpg" "" ++ str_replace b ".jpg" "")%string) /\
  (forall s : string, occurs ".jpg" s = false -> str_replace s ".jpg" "" = s) /\
  str_replace "a.jpg.jpg" ".jpg" "" = "a" /\
  str_replace "image.jpgfile" ".jpg" "" = "imagefile".
Proof.
  split; [|split; [|split; [|split]]].
  - intros annotation_file df H. rewrite annotation_frame_spec in H.
    destruct (detections annotation_file) as [ds|e]; simpl in H; [|discriminate].
    destruct (has_str_accessor (map Imagename ds)); [|discriminate].
    injection H as <-. exists ds. split; [reflexivity|].
    unfold frame_getitem. apply mapM_map_ok. reflexivity.
  - exact str_replace_jpg_app.
  - exact str_replace_jpg_none.
  - reflexivity.
  - reflexivity.
Qed.

Lemma jpg_removed_everywhere_witness :
  (exists ds : list DetectionRow,
      detections two_image_file = Ok ds /\
      frame_getitem (map annotated two_image_rows) "Imagename"
      = Ok (map (fun d => match Imagename d with
                          | PStr s => PStr (str_replace s ".jpg" "")
                          | _ => NaN
                          end) ds)) /\
  str_replace "img1.png" ".jpg" "" = "img1.png".
Proof.
  split.
  - apply (proj1 jpg_removed_everywhere two_image_file
                 (map annotated two_image_rows)).
    reflexivity.
  - apply (proj1 (proj2 (proj2 jpg_removed_everywhere)) "img1.png").
    reflexivity.
Defined.

(** ** The groups *)

(** C4.  For a file whose data rows all have a text identifier, the result
    is a mapping whose keys are distinct and are exactly the normalized
    identifiers of the rows; every row is in the group of one key only; and
    the three lists of a group are the [bbox] values, the [Species] and the
    [Confidence] of the rows with that identifier, in file order, so they
    have the length of that list of rows. *)
Theorem groups_partition_rows :
  forall (annotation_file : list csv_line) (ds : list DetectionRow),
    detections annotation_file = Ok ds ->
    Forall (fun d => is_text (Imagename d)) ds ->
    exists out : list (string * pyobj),
      parse_annotation annotation_file = Ok (PDict out) /\
      NoDup (map fst out) /\
      (forall k, In k (map fst out) <->
                 exists d, In d ds /\ normalize (Imagename d) = PStr k) /\
      (forall d, In d ds ->
         exists k, normalize (Imagename d) = PStr k /\
                   In k (map fst out) /\
                   forall k', In k' (map fst out) -> In d (rows_of k' ds) -> k' = k) /\
      (forall k g, In (k, g) out ->
         exists bbox species confidence : list pyobj,
           g = PDict [ ("bbox", PList bbox); ("Species", PList species);
                       ("Confidence", PList confidence) ] /\
           bbox = map bbox_of (filter (has_id k) ds) /\
           species = map Species (filter (has_id k) ds) /\
           confidence = map Confidence (filter (has_id k) ds) /\
           List.length bbox = List.length species /\
           List.length species = List.length confidence /\
           List.length confidence = List.length (filter (has_id k) ds)).
Proof.
  intros annotation_file ds Hds Htext.
  exists (groups ds). split; [apply parse_annotation_valid; assumption|].
  rewrite keys_groups.
  split; [apply StronglySorted_NoDup, StronglySorted_sorted_unique|].
  split; [intros k; rewrite In_sorted_unique; apply In_image_ids|].
  split.
  - intros d Hd. rewrite Forall_forall in Htext.
    destruct (Htext d Hd) as [s Hs].
    exists (str_replace s ".jpg" "").
    assert (Hn : normalize (Imagename d) = PStr (str_replace s ".jpg" ""))
      by (rewrite Hs; reflexivity).
    split; [exact Hn|]. split.
    + rewrite In_sorted_unique, In_image_ids. exists d. split; assumption.
    + intros k' _ Hin. apply In_rows_of in Hin. destruct Hin as [_ Hk'].
      rewrite Hn in Hk'. injection Hk' as <-. reflexivity.
  - intros k g Hin. apply In_groups in Hin. destruct Hin as [_ ->].
    unfold group_record, rows_of.
    do 3 eexists. split; [reflexivity|].
    repeat split; rewrite ?length_map; reflexivity.
Qed.

Lemma groups_partition_rows_witness :
  exists out : list (string * pyobj),
    parse_annotation two_image_file = Ok (PDict out) /\
    NoDup (map fst out) /\
    (forall k, In k (map fst out) <->
               exists d, In d two_image_rows /\ normalize (Imagename d) = PStr k) /\
    (forall d, In d two_image_rows ->
       exists k, normalize (Imagename d) = PStr k /\
                 In k (map fst out) /\
                 forall k', In k' (map fst out) ->
                            In d (rows_of k' two_image_rows) -> k' = k) /\
    (forall k g, In (k, g) out ->
       exists bbox species confidence : list pyobj,
         g = PDict [ ("bbox", PList bbox); ("Species", PList species);
                     ("Confidence", PList confidence) ] /\
         bbox = map bbox_of (filter (has_id k) two_image_rows) /\
         species = map Species (filter (has_id k) two_image_rows) /\
         confidence = map Confidence (filter (has_id k) two_image_rows) /\
         List.length bbox = List.length species /\
         List.length species = List.length confidence /\
         List.length confidence = List.length (filter (has_id k) two_image_rows)).
Proof.
  apply (groups_partition_rows two_image_file two_image_rows).
  - reflexivity.
  - repeat constructor; eexists; reflexivity.
Defined.

Example two_image_file_result :
  parse_annotation two_image_file
  = Ok (PDict
          [ ("a", PDict [ ("bbox",
                           PList [PDict [("bbox",
                                          PList [ PInt 5; PInt 15; PInt 15; PInt 15;
                                                  PInt 15; PInt 5; PInt 5; PInt 5 ])]]);
                          ("Species", PList [PStr "shark"]);
                          ("Confidence", PList [PFloat one]) ]);
            ("b", PDict [ ("bbox",
                           PList [PDict [("bbox",
                                          PList [ PInt 0; PInt 10; PInt 10; PInt 10;
                                                  PInt 10; PInt 0; PInt 0; PInt 0 ])];
                                  PDict [("bbox",
                                          PList [ PInt 1; PInt 4; PInt 3; PInt 4;
                                                  PInt 3; PInt 2; PInt 1; PInt 2 ])]]);
                          ("Species", PList [PStr "tuna"; PStr "cod"]);
                          ("Confidence", PList [PFloat one; PFloat one]) ]) ]).
Proof. reflexivity. Qed.

(** C10.  For a file whose data rows all have a text identifier, the keys of
    the result are exactly the normalized identifiers of the rows and stand
    in increasing order of [str] comparison, whatever the order in which the
    identifiers come in the file: a file with the same data rows in another
    order gives the same keys in the same order.  Within a group the three
    lists follow the rows of the group in file order. *)
Theorem keys_sorted :
  forall (annotation_file : list csv_line) (ds : list DetectionRow),
    detections annotation_file = Ok ds ->
    Forall (fun d => is_text (Imagename d)) ds ->
    exists out : list (string * pyobj),
      parse_annotation annotation_file = Ok (PDict out) /\
      StronglySorted str_lt (map fst out) /\
      (forall k, In k (map fst out) <->
                 exists d, In d ds /\ normalize (Imagename d) = PStr k) /\
      (forall k g, In (k, g) out ->
         g = PDict [ ("bbox", PList (map bbox_of (filter (has_id k) ds)));
                     ("Species", PList (map Species (filter (has_id k) ds)));
                     ("Confidence", PList (map Confidence (filter (has_id k) ds))) ]) /\
      forall (annotation_file' : list csv_line) (ds' : list DetectionRow),
        detections annotation_file' = Ok ds' ->
        Permutation ds ds' ->
        exists out' : list (string * pyobj),
          parse_annotation annotation_file' = Ok (PDict out') /\
          map fst out' = map fst out /\
          (forall k g, In (k, g) out' ->
             g = PDict [ ("bbox", PList (map bbox_of (filter (has_id k) ds')));
                         ("Species", PList (map Species (filter (has_id k) ds')));
                         ("Confidence",
                          PList (map Confidence (filter (has_id k) ds'))) ]).
Proof.
  intros annotation_file ds Hds Htext.
  exists (groups ds). split; [apply parse_annotation_valid; assumption|].
  rewrite keys_groups. split; [apply StronglySorted_sorted_unique|].
  split; [intros k; rewrite In_sorted_unique; apply In_image_ids|].
  split; [intros k g Hin; apply In_groups in Hin; destruct Hin as [_ ->];
          reflexivity|].
  intros annotation_file' ds' Hds' Hperm.
  exists (groups ds'). split; [|split].
  - apply parse_annotation_valid; [exact Hds'|].
    apply (Permutation_Forall Hperm). exact Htext.
  - rewrite keys_groups. apply sorted_unique_ext.
    intros k. rewrite !In_image_ids.
    split; intros [d [Hd Hk]]; exists d; split; try exact Hk.
    + apply (Permutation_in d (Permutation_sym Hperm)). exact Hd.
    + apply (Permutation_in d Hperm). exact Hd.
  - intros k g Hin. apply In_groups in Hin. destruct Hin as [_ ->]. reflexivity.
Qed.

Lemma keys_sorted_witness :
  exists out : list (string * pyobj),
    parse_annotation two_image_file = Ok (PDict out) /\
    StronglySorted str_lt (map fst out) /\
    (forall k, In k (map fst out) <->
               exists d, In d two_image_rows /\ normalize (Imagename d) = PStr k) /\
    (forall k g, In (k, g) out ->
       g = PDict [ ("bbox", PList (map bbox_of (filter (has_id k) two_image_rows)));
                   ("Species", PList (map Species (filter (has_id k) two_image_rows)));
                   ("Confidence",
                    PList (map Confidence (filter (has_id k) two_image_rows))) ]) /\
    forall (annotation_file' : list csv_line) (ds' : list DetectionRow),
      detections annotation_file' = Ok ds' ->
      Permutation two_image_rows ds' ->
      exists out' : list (string * pyobj),
        parse_annotation annotation_file' = Ok (PDict out') /\
        map fst out' = map fst out /\
        (forall k g, In (k, g) out' ->
           g = PDict [ ("bbox", PList (map bbox_of (filter (has_id k) ds')));
                       ("Species", PList (map Species (filter (has_id k) ds')));
                       ("Confidence",
                        PList (map Confidence (filter (has_id k) ds'))) ]).
Proof.
  apply (keys_sorted two_image_file two_image_rows).
  - reflexivity.
  - repeat constructor; eexists; reflexivity.
Defined.

Example str_lt_code_points : str_lt "Z" "a" /\ str_lt "a" "a.b" /\ str_lt "img10" "img9".
Proof. repeat split. Qed.

(** ** Failures *)











(** ** Layer information *)

(** C7.  Without a layer, [get_layer_info] returns the mapping
    [{"error": "No active layer selected"}]; it does nothing to the world and
    raises nothing. *)
Theorem get_layer_info_no_layer :
  outcome (get_layer_info None)
  = Ok (PDict [("error", PStr "No active layer selected")]) /\
  trace (get_layer_info None) = [].
Proof. split; reflexivity. Qed.

Example get_layer_info_sample :
  outcome (get_layer_info (Some sample_layer))
  = Ok (PDict
          [ ("name", PStr "sites"); ("type", PStr "vector");
            ("geometry_type", PStr "Point");
            ("fields", PDict [("id", PStr "Integer64"); ("name", PStr "String")]);
            ("feature_count", PInt 3); ("crs", PStr "EPSG:4326");
            ("extent", PDict [ ("xmin", PFloat zero); ("xmax", PFloat one);
                               ("ymin", PFloat zero); ("ymax", PFloat one) ]);
            ("data_source", PStr "/data/sites.shp") ]).
Proof. reflexivity. Qed.

(** ** The answer of the endpoint *)

(** Unfolds the calls to the world, so that a function reduces to its events
    and its outcome. *)
Ltac io_unfold :=
  unfold new_temp_file, call_writer, open_read, os_remove, os_system,
    requests_post, load_global.

Lemma api_response_handles (response : Response) :
  handles_response (outcome (api_response response)) response.
Proof.
  unfold handles_response, api_response, response_json. split; [|split].
  - intros H200 body Hbody. rewrite H200, Hbody. reflexivity.
  - intros H200 Hnone. rewrite H200, Hnone. reflexivity.
  - intros Hne. apply Z.eqb_neq in Hne. rewrite Hne. reflexivity.
Qed.

(** With status 200 and a body that is not JSON, [response.json()] raises. *)
Lemma api_response_not_json (response : Response) :
  status_code response = 200%Z -> json response = None ->
  outcome (api_response response) = Raise JSONDecodeError.
Proof.
  intros H200 Hnone. unfold api_response, response_json.
  rewrite H200, Hnone. reflexivity.
Qed.

Lemma send_layer_as_geojson_response (w : World) (l : QgsMapLayer)
      (api_endpoint geojson_data : string) (response : Response) :
  layer_type l = VectorLayer ->
  read w (NamedTemporaryFile w ".geojson") = Some geojson_data ->
  post w api_endpoint geojson_data = Some response ->
  outcome (send_layer_as_geojson w (Some l) api_endpoint)
  = outcome (api_response response).
Proof.
  intros Hv Hread Hpost.
  unfold send_layer_as_geojson, not_a_vector_layer. rewrite Hv.
  io_unfold. cbn.
  destruct (writeAsVectorFormat w l (NamedTemporaryFile w ".geojson") "GeoJSON"
            =? NoError)%Z;
    cbn; rewrite Hread; cbn; rewrite Hpost; reflexivity.
Qed.

Lemma send_layer_as_geojson_using_gdal_response (w : World) (l : QgsMapLayer)
      (api_endpoint geojson_data : string) (response : Response) :
  layer_type l = VectorLayer ->
  writeAsVectorFormat w l (NamedTemporaryFile w ".gpkg") "GPKG" = NoError ->
  GetDriverByName w "GPKG" = true ->
  driver_Open w (NamedTemporaryFile w ".gpkg") = true ->
  system w (join_spaces [ "ogr2ogr"; "-f"; "GeoJSON";
                          NamedTemporaryFile w ".geojson";
                          NamedTemporaryFile w ".gpkg" ]) = 0%Z ->
  read w (NamedTemporaryFile w ".geojson") = Some geojson_data ->
  post w api_endpoint geojson_data = Some response ->
  outcome (send_layer_as_geojson_using_gdal_ w (Some l) api_endpoint)
  = outcome (api_response response).
Proof.
  intros Hv Hw Hd Ho Hs Hread Hpost.
  unfold send_layer_as_geojson_using_gdal_, not_a_vector_layer. rewrite Hv.
  io_unfold. cbn in Hs. cbn. rewrite Hw. cbn. rewrite Hd, Ho. cbn. rewrite Hs. cbn.
  rewrite Hread. cbn. rewrite Hpost. reflexivity.
Qed.

(** C6, as the code has it.  Whatever answer [response] the endpoint gives
    to an upload function: when the status code is 200 and the body is JSON
    the function returns the success mapping with the parsed body; when the
    status code is 200 and the body is not JSON it raises the decoding error
    of [response.json()] and returns no mapping; with any other status code
    it returns the error mapping with the status code in its message and the
    body text as ["response"]. *)
Theorem upload_response_handling :
  forall (w : World) (l : QgsMapLayer) (api_endpoint geojson_data : string)
         (response : Response),
    layer_type l = VectorLayer ->
    read w (NamedTemporaryFile w ".geojson") = Some geojson_data ->
    post w api_endpoint geojson_data = Some response ->
    handles_response (outcome (send_layer_as_geojson w (Some l) api_endpoint))
                     response /\
    (writeAsVectorFormat w l (NamedTemporaryFile w ".gpkg") "GPKG" = NoError ->
     GetDriverByName w "GPKG" = true ->
     driver_Open w (NamedTemporaryFile w ".gpkg") = true ->
     system w (join_spaces [ "ogr2ogr"; "-f"; "GeoJSON";
                             NamedTemporaryFile w ".geojson";
                             NamedTemporaryFile w ".gpkg" ]) = 0%Z ->
     handles_response
       (outcome (send_layer_as_geojson_using_gdal_ w (Some l) api_endpoint))
       response).
Proof.
  intros w l api_endpoint geojson_data response Hv Hread Hpost. split.
  - rewrite (send_layer_as_geojson_response w l api_endpoint geojson_data response)
      by assumption.
    apply api_response_handles.
  - intros Hw Hd Ho Hs.
    rewrite (send_layer_as_geojson_using_gdal_response
               w l api_endpoint geojson_data response) by assumption.
    apply api_response_handles.
Qed.

Lemma upload_response_handling_witness :
  (outcome (send_layer_as_geojson (sample_world NoError ok_response)
                                  (Some sample_layer) "http://localhost/api")
   = Ok (PDict [ ("success", PStr "Layer successfully sent to the API");
                 ("response", PDict []) ])) /\
  (outcome (send_layer_as_geojson (sample_world NoError plain_text_response)
                                  (Some sample_layer) "http://localhost/api")
   = Raise JSONDecodeError) /\
  (outcome (send_layer_as_geojson_using_gdal_
              (sample_world NoError not_found_response)
              (Some sample_layer) "http://localhost/api")
   = Ok (PDict [ ("error",
                  PStr "Failed to send GeoJSON to API. Status code: 404");
                 ("response", PStr "Not Found") ])).
Proof.
  split; [|split].
  - apply (proj1 (proj1 (upload_response_handling
                           (sample_world NoError ok_response) sample_layer
                           "http://localhost/api" "{}" ok_response
                           eq_refl eq_refl eq_refl)));
      reflexivity.
  - apply (proj1 (proj2 (proj1 (upload_response_handling
                                  (sample_world NoError plain_text_response)
                                  sample_layer "http://localhost/api" "{}"
                                  plain_text_response
                                  eq_refl eq_refl eq_refl))));
      reflexivity.
  - apply (proj2 (proj2 (proj2 (upload_response_handling
                                  (sample_world NoError not_found_response)
                                  sample_layer "http://localhost/api" "{}"
                                  not_found_response
                                  eq_refl eq_refl eq_refl)
                               eq_refl eq_refl eq_refl eq_refl))).
    discriminate.
Defined.

(** C6, as stated, fails: an answer with status 200 whose body is not JSON
    gives no success mapping; the call raises. *)
Lemma status_200_not_json_raises :
  status_code plain_text_response = 200%Z /\
  outcome (send_layer_as_geojson (sample_world NoError plain_text_response)
                                 (Some sample_layer) "http://localhost/api")
  = Raise JSONDecodeError /\
  outcome (send_layer_as_geojson_using_gdal_
             (sample_world NoError plain_text_response)
             (Some sample_layer) "http://localhost/api")
  = Raise JSONDecodeError.
Proof. repeat split. Qed.

(** ** The status of the writer *)

Lemma export_layer_to_geojson_writer_error (w : World) (l : QgsMapLayer)
      (output_path : string) :
  let error :=
    writeAsVectorFormat w l (path_join w output_path (layer_name l ++ ".geojson"))
                        "GeoJSON" in
  layer_type l = VectorLayer ->
  (error = NoError ->
   outcome (export_layer_to_geojson w (Some l) output_path)
   = Ok (PDict [("success",
                 PStr ("Layer exported successfully to "
                       ++ path_join w output_path (layer_name l ++ ".geojson")))])) /\
  (error <> NoError ->
   outcome (export_layer_to_geojson w (Some l) output_path)
   = Ok (PDict [("error",
                 PStr ("Failed to export layer. Error code: " ++ str_of_int error))])).
Proof.
  intros error Hv. unfold export_layer_to_geojson, not_a_vector_layer.
  io_unfold. rewrite Hv. cbn. fold error. split; intros H.
  - rewrite H. reflexivity.
  - apply Z.eqb_neq in H. rewrite H. reflexivity.
Qed.

Lemma send_layer_as_geojson_using_gdal_writer_error (w : World) (l : QgsMapLayer)
      (api_endpoint : string) :
  let temp_file := NamedTemporaryFile w ".gpkg" in
  let error := writeAsVectorFormat w l temp_file "GPKG" in
  layer_type l = VectorLayer ->
  error <> NoError ->
  send_layer_as_geojson_using_gdal_ w (Some l) api_endpoint
  = ([EvTempFile temp_file; EvWriteVector temp_file "GPKG"; EvRemove temp_file],
     Ok (PDict [("error",
                 PStr ("Failed to export layer to GPKG. Error code: "
                       ++ str_of_int error))])).
Proof.
  intros temp_file error Hv H.
  unfold send_layer_as_geojson_using_gdal_, not_a_vector_layer.
  io_unfold. rewrite Hv. cbn. fold temp_file. fold error.
  apply Z.eqb_neq in H. rewrite H. reflexivity.
Qed.

(** [send_layer_as_geojson] looks at the status only to print a message:
    after a failed export it reads the temporary file and posts what it
    holds. *)
Lemma send_layer_as_geojson_writer_error (w : World) (l : QgsMapLayer)
      (api_endpoint geojson_data : string) (response : Response) :
  let temp_file := NamedTemporaryFile w ".geojson" in
  layer_type l = VectorLayer ->
  writeAsVectorFormat w l temp_file "GeoJSON" <> NoError ->
  read w temp_file = Some geojson_data ->
  post w api_endpoint geojson_data = Some response ->
  send_layer_as_geojson w (Some l) api_endpoint
  = ([ EvTempFile temp_file; EvWriteVector temp_file "GeoJSON"; EvRead temp_file;
       EvRemove temp_file; EvPost api_endpoint geojson_data ]
       ++ trace (api_response response),
     outcome (api_response response)).
Proof.
  intros temp_file Hv H Hread Hpost.
  unfold send_layer_as_geojson, not_a_vector_layer.
  io_unfold. rewrite Hv. cbn. fold temp_file.
  apply Z.eqb_neq in H. rewrite H. cbn. rewrite Hread. cbn. rewrite Hpost.
  reflexivity.
Qed.

(** C5, at a writer status other than [NoError].  With status 2,
    [export_layer_to_geojson] and [send_layer_as_geojson_using_gdal_] return
    the error mapping with the code and go no further;
    [send_layer_as_geojson] posts the contents of the temporary file and
    returns the success mapping. *)
Theorem writer_error_in_the_three_functions :
  outcome (export_layer_to_geojson (sample_world 2%Z ok_response)
                                   (Some sample_layer) "/out")
  = Ok (PDict [("error", PStr "Failed to export layer. Error code: 2")]) /\
  send_layer_as_geojson_using_gdal_ (sample_world 2%Z ok_response)
                                    (Some sample_layer) "http://localhost/api"
  = ([ EvTempFile "/tmp/tmpk3v9.gpkg"; EvWriteVector "/tmp/tmpk3v9.gpkg" "GPKG";
       EvRemove "/tmp/tmpk3v9.gpkg" ],
     Ok (PDict [("error", PStr "Failed to export layer to GPKG. Error code: 2")])) /\
  send_layer_as_geojson (sample_world 2%Z ok_response)
                        (Some sample_layer) "http://localhost/api"
  = ([ EvTempFile "/tmp/tmpk3v9.geojson";
       EvWriteVector "/tmp/tmpk3v9.geojson" "GeoJSON";
       EvRead "/tmp/tmpk3v9.geojson"; EvRemove "/tmp/tmpk3v9.geojson";
       EvPost "http://localhost/api" "{}" ],
     Ok (PDict [ ("success", PStr "Layer successfully sent to the API");
                 ("response", PDict []) ])).
Proof. repeat split. Qed.

(** ** The endpoint of [convert_to_geojson_using_gdal] *)

Lemma for_each_copy_layer (input_ds : list OgrLayer) :
  outcome (for_each copy_layer input_ds) = Ok tt /\
  filter is_post (trace (for_each copy_layer input_ds)) = [].
Proof.
  assert (F : forall fs : list string,
             outcome (for_each (fun feature => emit (EvCreateFeature feature)) fs)
             = Ok tt /\
             filter is_post
                    (trace (for_each (fun feature => emit (EvCreateFeature feature))
                                     fs)) = []).
  { induction fs as [|f fs [IH1 IH2]]; [split; reflexivity|].
    unfold outcome, trace in *. cbn. split; assumption. }
  induction input_ds as [|input_layer input_ds [IH1 IH2]]; [split; reflexivity|].
  destruct (F (features input_layer)) as [F1 F2].
  unfold outcome, trace in *. cbn [for_each].
  unfold copy_layer at 1 3.
  destruct (for_each (fun feature => emit (EvCreateFeature feature))
                     (features input_layer)) as [t1 r1].
  destruct (for_each copy_layer input_ds) as [t2 r2].
  cbn in *. subst r1 r2. cbn. split; [reflexivity|].
  rewrite filter_app, F2, IH2. reflexivity.
Qed.

(** C9.  [api_endpoint] is neither a parameter nor a local name of
    [convert_to_geojson_using_gdal], and the module binds no such global.
    A call that gets as far as the upload (the input opens, the output is
    created, written and read back) raises [NameError] for this name; nothing
    is posted. *)
Theorem convert_to_geojson_never_uploads :
  forall (w : World) (input_path : string) (output_path : option string)
         (input_ds : list OgrLayer) (geojson_data : string),
    let output_file :=
      match output_path with
      | None => (uuid4_hex w ++ ".geojson")%string
      | Some p => p
      end in
    ogr_Open w input_path = Some input_ds ->
    GetDriverByName w "GeoJSON" = true ->
    CreateDataSource w output_file = true ->
    read w output_file = Some geojson_data ->
    ~ In "api_endpoint" convert_locals /\
    lookup "api_endpoint" ioutils_globals = None /\
    outcome (convert_to_geojson_using_gdal w ioutils_globals input_path output_path)
    = Raise (NameError "api_endpoint") /\
    filter is_post
           (trace (convert_to_geojson_using_gdal w ioutils_globals
                                                 input_path output_path))
    = [].
Proof.
  intros w input_path output_path input_ds geojson_data output_file
         Hopen Hdrv Hcreate Hread.
  split; [|split; [reflexivity|]].
  - unfold convert_locals. simpl. intuition discriminate.
  - unfold convert_to_geojson_using_gdal. fold output_file.
    rewrite Hopen, Hdrv, Hcreate. cbn [negb].
    destruct (for_each_copy_layer input_ds) as [H1 H2].
    unfold outcome, trace in *.
    destruct (for_each copy_layer input_ds) as [t r]. cbn in H1, H2. subst r.
    io_unfold. cbn. rewrite Hread. cbn.
    split; [reflexivity|].
    rewrite filter_app, H2. reflexivity.
Qed.

Lemma convert_to_geojson_never_uploads_witness :
  outcome (convert_to_geojson_using_gdal (sample_world NoError ok_response)
                                         ioutils_globals "/data/sites.shp" None)
  = Raise (NameError "api_endpoint").
Proof.
  apply (convert_to_geojson_never_uploads
           (sample_world NoError ok_response) "/data/sites.shp" None
           [ {| GetName := "sites"; GetGeomType := 1;
                schema := ["id"]; features := ["f1"; "f2"] |} ] "{}"
           eq_refl eq_refl eq_refl eq_refl).
Defined.

Example convert_to_geojson_sample :
  convert_to_geojson_using_gdal (sample_world NoError ok_response)
                                ioutils_globals "/data/sites.shp" (Some "out.geojson")
  = ([ EvCreateLayer "sites" 1; EvCreateFields ["id"]; EvCreateFeature "f1";
       EvCreateFeature "f2"; EvRead "out.geojson"; EvRemove "out.geojson" ],
     Raise (NameError "api_endpoint")).
Proof. reflexivity. Qed.

(** * Further properties of the module *)

(** ** Dicts *)

Section Dicts.

Context {V : Type}.

Lemma lookup_setitem_same (d : list (string * V)) (k : string) (v : V) :
  lookup k (setitem d k v) = Some v.
Proof.
  induction d as [|[k' w] d IH]; simpl.
  - rewrite String.eqb_refl. reflexivity.
  - destruct (String.eqb k' k) eqn:E; simpl; rewrite E; auto.
Qed.

Lemma lookup_setitem_other (d : list (string * V)) (k k' : string) (v : V) :
  k <> k' -> lookup k' (setitem d k v) = lookup k' d.
Proof.
  intros Hne. induction d as [|[k0 w] d IH]; simpl.
  - destruct (String.eqb k k') eqn:E; [|reflexivity].
    apply String.eqb_eq in E. contradiction.
  - destruct (String.eqb k0 k) eqn:E; simpl.
    + apply String.eqb_eq in E. subst k0.
      destruct (String.eqb k k') eqn:E'; [|reflexivity].
      apply String.eqb_eq in E'. contradiction.
    + destruct (String.eqb k0 k'); auto.
Qed.

Lemma setitem_new (d : list (string * V)) (k : string) (v : V) :
  lookup k d = None -> setitem d k v = d ++ [(k, v)].
Proof.
  induction d as [|[k' w] d IH]; simpl; [reflexivity|].
  destruct (String.eqb k' k); [discriminate|].
  intros H. rewrite IH by exact H. reflexivity.
Qed.

Lemma lookup_app (d1 d2 : list (string * V)) (k : string) :
  lookup k (d1 ++ d2)
  = match lookup k d1 with
    | Some v => Some v
    | None => lookup k d2
    end.
Proof.
  induction d1 as [|[k' w] d1 IH]; simpl; [reflexivity|].
  destruct (String.eqb k' k); auto.
Qed.

End Dicts.

(** ** A missing column *)

Lemma mapM_getitem (row : Series) (cols : list string) :
  match first_missing row cols with
  | Some c => mapM (fun i => getitem row i) cols = Raise (KeyError c)
  | None => exists vs, mapM (fun i => getitem row i) cols = Ok vs /\
                       Forall2 (fun c v => lookup c row = Some v) cols vs
  end.
Proof.
  unfold first_missing. induction cols as [|c cols IH]; simpl.
  - exists []. split; [reflexivity | constructor].
  - unfold getitem at 1 3. destruct (lookup c row) as [v|] eqn:Hc; simpl.
    + destruct (find _ cols) as [c'|].
      * rewrite IH. reflexivity.
      * destruct IH as [vs [Hvs Hall]]. exists (v :: vs).
        rewrite Hvs. split; [reflexivity | constructor; assumption].
    + reflexivity.
Qed.

(** X1.  [bbox_parser] raises [KeyError] for the first of the listed columns
    that the row does not have; when the row has them all it returns the
    one-key mapping from [name] to the list of the row's values for the
    columns, in the order of the columns. *)
Theorem bbox_parser_missing_column :
  forall (row : Series) (cols : list string) (name : string),
    (forall c, first_missing row cols = Some c ->
               bbox_parser row cols name = Raise (KeyError c)) /\
    (first_missing row cols = None ->
     exists vs, bbox_parser row cols name = Ok (PDict [(name, PList vs)]) /\
                Forall2 (fun c v => lookup c row = Some v) cols vs).
Proof.
  intros row cols name. pose proof (mapM_getitem row cols) as H.
  unfold bbox_parser. split.
  - intros c Hc. rewrite Hc in H. rewrite H. reflexivity.
  - intros Hn. rewrite Hn in H. destruct H as [vs [Hvs Hall]].
    exists vs. rewrite Hvs. split; [reflexivity | exact Hall].
Qed.

Lemma bbox_parser_missing_column_witness :
  bbox_parser [("TL_x", PInt 1); ("TL_y", PInt 2)] ["TL_x"; "BR_x"; "BR_y"] "bbox"
  = Raise (KeyError "BR_x") /\
  exists vs,
    bbox_parser [("TL_x", PInt 1); ("TL_y", PInt 2)] ["TL_y"; "TL_x"] "box"
    = Ok (PDict [("box", PList vs)]) /\
    Forall2 (fun c v => lookup c [("TL_x", PInt 1); ("TL_y", PInt 2)] = Some v)
            ["TL_y"; "TL_x"] vs.
Proof.
  split.
  - apply (proj1 (bbox_parser_missing_column
                    [("TL_x", PInt 1); ("TL_y", PInt 2)]
                    ["TL_x"; "BR_x"; "BR_y"] "bbox")).
    reflexivity.
  - apply (proj2 (bbox_parser_missing_column
                    [("TL_x", PInt 1); ("TL_y", PInt 2)] ["TL_y"; "TL_x"] "box")).
    reflexivity.
Defined.

(** ** The lines that are not data *)

Lemma drop_lines_past (skiprows : list nat) (i : nat) (lines : list csv_line) :
  (forall n, In n skiprows -> (n < i)%nat) -> drop_lines skiprows i lines = lines.
Proof.
  revert i. induction lines as [|l lines IH]; intros i H; simpl; [reflexivity|].
  replace (existsb (Nat.eqb i) skiprows) with false.
  - rewrite IH; [reflexivity|]. intros n Hn. specialize (H n Hn). lia.
  - symmetry. apply not_true_is_false. intros E.
    apply existsb_exists in E. destruct E as [n [Hn E]].
    apply Nat.eqb_eq in E. subst n. specialize (H i Hn). lia.
Qed.

Lemma data_lines_after_header (h1 h2 : csv_line) (rest : list csv_line) :
  data_lines (h1 :: h2 :: rest) [0; 1]%nat
  = filter (fun l => negb (is_blank l)) rest.
Proof.
  unfold data_lines. simpl. rewrite drop_lines_past; [reflexivity|].
  intros n [<-|[<-|[]]]; lia.
Qed.

Lemma parse_annotation_data_lines (file file' : list csv_line) :
  data_lines file [0; 1]%nat = data_lines file' [0; 1]%nat ->
  parse_annotation file = parse_annotation file'.
Proof.
  intros H. unfold parse_annotation, annotation_frame, read_csv, data_cells.
  rewrite H. reflexivity.
Qed.

(** X2.  The first two lines of the file are skipped by position: what they
    hold, header or data, has no effect on the result. *)
Theorem first_two_lines_ignored :
  forall (h1 h2 h1' h2' : csv_line) (rest : list csv_line),
    parse_annotation (h1 :: h2 :: rest) = parse_annotation (h1' :: h2' :: rest).
Proof.
  intros. apply parse_annotation_data_lines.
  rewrite !data_lines_after_header. reflexivity.
Qed.

(** X3.  A blank line after the first two lines has no effect on the
    result. *)
Theorem blank_lines_ignored :
  forall (h1 h2 : csv_line) (before after : list csv_line),
    parse_annotation (h1 :: h2 :: before ++ [] :: after)
    = parse_annotation (h1 :: h2 :: before ++ after).
Proof.
  intros. apply parse_annotation_data_lines.
  rewrite !data_lines_after_header, !filter_app. reflexivity.
Qed.

(** ** The sizes of the groups *)

Lemma list_sum_map_add {A : Type} (f g : A -> nat) (l : list A) :
  list_sum (map (fun x => (f x + g x)%nat) l)
  = (list_sum (map f l) + list_sum (map g l))%nat.
Proof.
  induction l as [|x l IH]; simpl; [reflexivity|]. rewrite IH. lia.
Qed.

Lemma list_sum_zero {A : Type} (f : A -> nat) (l : list A) :
  (forall x, In x l -> f x = 0%nat) -> list_sum (map f l) = 0%nat.
Proof.
  induction l as [|x l IH]; intros H; simpl; [reflexivity|].
  rewrite (H x (or_introl eq_refl)), IH; [reflexivity|].
  intros y Hy. apply H. right. exact Hy.
Qed.

Lemma list_sum_one_key (k0 : string) (keys : list string) :
  NoDup keys -> In k0 keys ->
  list_sum (map (fun k => if String.eqb k0 k then 1 else 0)%nat keys) = 1%nat.
Proof.
  induction 1 as [|k keys Hnin Hnd IH]; intros Hin; [destruct Hin|].
  simpl. destruct (String.eqb k0 k) eqn:E.
  - apply String.eqb_eq in E. subst k.
    rewrite list_sum_zero; [reflexivity|].
    intros x Hx. destruct (String.eqb k0 x) eqn:E'; [|reflexivity].
    apply String.eqb_eq in E'. subst x. contradiction.
  - destruct Hin as [->|Hin]; [rewrite String.eqb_refl in E; discriminate|].
    apply IH. exact Hin.
Qed.

Lemma sum_has_id (keys : list string) (d : DetectionRow) :
  NoDup keys ->
  (forall s, normalize (Imagename d) = PStr s -> In s keys) ->
  list_sum (map (fun k => if has_id k d then 1 else 0)%nat keys)
  = (if is_str (Imagename d) then 1 else 0)%nat.
Proof.
  intros Hnd Hin. unfold has_id in *.
  destruct (Imagename d) as [ |z|f|s|l|m|n]; simpl in *;
    try (apply list_sum_zero; reflexivity).
  apply list_sum_one_key; [exact Hnd|]. apply Hin. reflexivity.
Qed.

Lemma groups_total (keys : list string) (ds : list DetectionRow) :
  NoDup keys ->
  (forall d s, In d ds -> normalize (Imagename d) = PStr s -> In s keys) ->
  list_sum (map (fun k => List.length (rows_of k ds)) keys)
  = List.length (filter (fun d => is_str (Imagename d)) ds).
Proof.
  intros Hnd. unfold rows_of. induction ds as [|d ds IH]; intros Hin.
  - simpl. apply list_sum_zero. reflexivity.
  - rewrite (map_ext _ (fun k => ((if has_id k d then 1 else 0)
                                  + List.length (filter (has_id k) ds))%nat)).
    + rewrite list_sum_map_add, IH, sum_has_id.
      * simpl. destruct (is_str (Imagename d)); reflexivity.
      * exact Hnd.
      * intros s Hs. apply (Hin d s); [left; reflexivity | exact Hs].
      * intros d' s Hd' Hs. apply (Hin d' s); [right; exact Hd' | exact Hs].
    + intros k. simpl. destruct (has_id k d); reflexivity.
Qed.

Lemma parse_annotation_groups (annotation_file : list csv_line)
      (ds : list DetectionRow) (out : list (string * pyobj)) :
  detections annotation_file = Ok ds ->
  parse_annotation annotation_file = Ok (PDict out) ->
  out = groups ds.
Proof.
  intros Hds H. rewrite parse_annotation_spec, Hds in H. cbn [bind] in H.
  destruct (has_str_accessor (map Imagename ds)); [|discriminate H].
  injection H as <-. reflexivity.
Qed.

Lemma group_sizes (ds : list DetectionRow) :
  map (fun kg => group_size (snd kg)) (groups ds)
  = map (fun k => List.length (rows_of k ds)) (sorted_unique (image_ids ds)).
Proof.
  unfold groups. rewrite map_map. apply map_ext. intros k.
  unfold group_size. simpl. apply length_map.
Qed.

(** X4.  A data row is counted in the returned mapping exactly when its
    image identifier is text: the sizes of the groups add up to the number
    of such rows, and a row with a missing identifier is in no group. *)
Theorem group_sizes_add_up :
  forall (annotation_file : list csv_line) (ds : list DetectionRow)
         (out : list (string * pyobj)),
    detections annotation_file = Ok ds ->
    parse_annotation annotation_file = Ok (PDict out) ->
    list_sum (map (fun kg => group_size (snd kg)) out)
    = List.length (filter (fun d => is_str (Imagename d)) ds).
Proof.
  intros annotation_file ds out Hds H.
  rewrite (parse_annotation_groups annotation_file ds out Hds H), group_sizes.
  apply groups_total.
  - apply StronglySorted_NoDup, StronglySorted_sorted_unique.
  - intros d s Hd Hs. rewrite In_sorted_unique, In_image_ids.
    exists d. split; assumption.
Qed.

Lemma group_sizes_add_up_witness :
  list_sum (map (fun kg => group_size (snd kg))
                [ ("a", group_record (rows_of "a" missing_id_rows)) ])
  = 2%nat.
Proof.
  apply (group_sizes_add_up missing_id_file missing_id_rows); reflexivity.
Defined.

Lemma image_ids_length (ds : list DetectionRow) :
  (List.length (image_ids ds) <= List.length ds)%nat.
Proof.
  unfold image_ids. induction ds as [|d ds IH]; simpl; [lia|].
  rewrite length_app.
  destruct (normalize (Imagename d)); simpl; lia.
Qed.

(** X5.  No returned group is empty, and there are at most as many groups as
    data rows. *)
Theorem groups_not_empty :
  forall (annotation_file : list csv_line) (ds : list DetectionRow)
         (out : list (string * pyobj)),
    detections annotation_file = Ok ds ->
    parse_annotation annotation_file = Ok (PDict out) ->
    (forall k g, In (k, g) out -> (1 <= group_size g)%nat) /\
    (List.length out <= List.length ds)%nat.
Proof.
  intros annotation_file ds out Hds H.
  rewrite (parse_annotation_groups annotation_file ds out Hds H). split.
  - intros k g Hin. apply In_groups in Hin. destruct Hin as [Hk ->].
    rewrite In_sorted_unique, In_image_ids in Hk. destruct Hk as [d [Hd Hn]].
    unfold group_size. simpl. rewrite length_map.
    assert (Hr : In d (rows_of k ds)) by (apply In_rows_of; split; assumption).
    destruct (rows_of k ds); [destruct Hr | simpl; lia].
  - rewrite <- (length_map fst), keys_groups.
    apply Nat.le_trans with (List.length (image_ids ds));
      [|apply image_ids_length].
    apply NoDup_incl_length.
    + apply StronglySorted_NoDup, StronglySorted_sorted_unique.
    + intros k Hk. rewrite In_sorted_unique in Hk. exact Hk.
Qed.

Lemma groups_not_empty_witness :
  (forall k g, In (k, g) [ ("a", group_record (rows_of "a" missing_id_rows)) ] ->
               (1 <= group_size g)%nat) /\
  (1 <= 3)%nat.
Proof.
  apply (groups_not_empty missing_id_file missing_id_rows); reflexivity.
Defined.

(** ** The length of a normalized identifier *)

Lemma replace_from_length (old s : string) (skip : nat) :
  (String.length (replace_from old "" skip s) <= String.length s - skip)%nat.
Proof.
  revert skip. induction s as [|c s IH]; intros skip; [simpl; lia|].
  destruct skip as [|k]; cbn [replace_from].
  - destruct (prefix old (String c s)).
    + cbn [append]. specialize (IH (String.length old - 1)%nat).
      cbn [String.length]. lia.
    + cbn [String.length]. specialize (IH 0%nat). lia.
  - cbn [String.length]. specialize (IH k). lia.
Qed.

Lemma replace_from_shorter (old s : string) :
  old <> "" -> occurs old s = true ->
  (String.length (replace_from old "" 0 s) < String.length s)%nat.
Proof.
  intros Hold. induction s as [|c s IH]; intros H.
  - destruct old; [congruence | discriminate H].
  - cbn [occurs] in H. cbn [replace_from].
    destruct (prefix old (String c s)).
    + cbn [append String.length].
      pose proof (replace_from_length old s (String.length old - 1)). lia.
    + cbn [orb] in H. cbn [String.length]. specialize (IH H). lia.
Qed.

(** X6.  Removing [".jpg"] never makes an identifier longer, and leaves it as
    it is exactly when [".jpg"] does not occur in it. *)
Theorem normalized_identifier_length :
  forall s : string,
    (String.length (str_replace s ".jpg" "") <= String.length s)%nat /\
    (str_replace s ".jpg" "" = s <-> occurs ".jpg" s = false).
Proof.
  intros s. split.
  - unfold str_replace. pose proof (replace_from_length ".jpg" s 0). lia.
  - split; [|apply str_replace_jpg_none].
    intros E. destruct (occurs ".jpg" s) eqn:Ho; [|reflexivity].
    exfalso. apply replace_from_shorter in Ho; [|discriminate].
    unfold str_replace in E. rewrite E in Ho. lia.
Qed.

(** ** The information on a layer *)

(** X7.  For a layer that is there, [get_layer_info] touches nothing, raises
    nothing and returns a mapping without ["error"] key that holds the name,
    the CRS, the extent and the source of the layer.  The key ["type"] is
    ["vector"] or ["raster"] for such layers and is absent for a layer of
    another type; geometry type and feature count are there for a vector
    layer only. *)
Theorem get_layer_info_of_layer :
  forall layer : QgsMapLayer,
    exists info : list (string * pyobj),
      get_layer_info (Some layer) = ([], Ok (PDict info)) /\
      lookup "error" info = None /\
      lookup "name" info = Some (PStr (layer_name layer)) /\
      lookup "crs" info = Some (PStr (crs_authid layer)) /\
      lookup "extent" info
      = Some (PDict [ ("xmin", PFloat (xMinimum layer));
                      ("xmax", PFloat (xMaximum layer));
                      ("ymin", PFloat (yMinimum layer));
                      ("ymax", PFloat (yMaximum layer)) ]) /\
      lookup "data_source" info = Some (PStr (layer_source layer)) /\
      (layer_type layer = VectorLayer ->
       lookup "type" info = Some (PStr "vector") /\
       lookup "geometry_type" info = Some (PStr (geometryType_name layer)) /\
       lookup "feature_count" info = Some (PInt (featureCount layer))) /\
      (layer_type layer = RasterLayer ->
       lookup "type" info = Some (PStr "raster")) /\
      (layer_type layer <> VectorLayer ->
       lookup "geometry_type" info = None /\
       lookup "fields" info = None /\
       lookup "feature_count" info = None) /\
      (layer_type layer <> VectorLayer -> layer_type layer <> RasterLayer ->
       lookup "type" info = None).
Proof.
  intros layer. unfold get_layer_info, ret.
  destruct (layer_type layer) eqn:Ht; eexists; (split; [reflexivity|]);
    cbn; repeat split; try reflexivity; try discriminate; try congruence.
Qed.

Lemma get_layer_info_of_layer_witness :
  exists info : list (string * pyobj),
    get_layer_info (Some sample_raster) = ([], Ok (PDict info)) /\
    lookup "type" info = Some (PStr "raster") /\
    lookup "feature_count" info = None.
Proof.
  destruct (get_layer_info_of_layer sample_raster)
    as [info [H [_ [_ [_ [_ [_ [_ [Hr [Hn _]]]]]]]]]].
  exists info. split; [exact H|]. split.
  - apply Hr. reflexivity.
  - apply Hn. discriminate.
Defined.

Lemma lookup_fields_info (fields : list (string * string))
      (acc : list (string * pyobj)) (n : string) :
  lookup n (fold_left (fun fields_info field =>
                         setitem fields_info (fst field) (PStr (snd field)))
                      fields acc)
  = match lookup n (rev fields) with
    | Some t => Some (PStr t)
    | None => lookup n acc
    end.
Proof.
  revert acc. induction fields as [|[k t] fields IH]; intros acc; [reflexivity|].
  cbn [fold_left rev fst snd]. rewrite IH, lookup_app.
  destruct (lookup n (rev fields)); [reflexivity|].
  cbn [lookup]. destruct (String.eqb k n) eqn:E.
  - apply String.eqb_eq in E. subst k. apply lookup_setitem_same.
  - apply lookup_setitem_other. intros ->. rewrite String.eqb_refl in E.
    discriminate.
Qed.

Lemma fields_info_distinct (fields : list (string * string))
      (acc : list (string * pyobj)) :
  NoDup (map fst fields) ->
  (forall f, In f fields -> lookup (fst f) acc = None) ->
  fold_left (fun fields_info field =>
               setitem fields_info (fst field) (PStr (snd field)))
            fields acc
  = acc ++ map (fun f => (fst f, PStr (snd f))) fields.
Proof.
  revert acc. induction fields as [|[k t] fields IH]; intros acc Hnd Hacc.
  - simpl. rewrite app_nil_r. reflexivity.
  - cbn [fold_left map fst snd]. inversion Hnd as [|? ? Hnin Hnd']; subst.
    rewrite setitem_new by (apply (Hacc (k, t)); left; reflexivity).
    rewrite IH; [rewrite <- app_assoc; reflexivity | exact Hnd'|].
    intros f Hf. rewrite lookup_app.
    rewrite (Hacc f (or_intror Hf)). cbn [lookup].
    destruct (String.eqb k (fst f)) eqn:E; [|reflexivity].
    apply String.eqb_eq in E. exfalso. apply Hnin. rewrite E.
    apply in_map. exact Hf.
Qed.

(** X8.  For a vector layer the ["fields"] entry maps every field name to
    the type name of the last field of that name; when the field names are
    distinct it lists the fields with their type names in layer order. *)
Theorem get_layer_info_fields :
  forall layer : QgsMapLayer,
    layer_type layer = VectorLayer ->
    exists info fields_info : list (string * pyobj),
      outcome (get_layer_info (Some layer)) = Ok (PDict info) /\
      lookup "fields" info = Some (PDict fields_info) /\
      (forall n, lookup n fields_info
                 = match lookup n (rev (layer_fields layer)) with
                   | Some t => Some (PStr t)
                   | None => None
                   end) /\
      (NoDup (map fst (layer_fields layer)) ->
       fields_info = map (fun f => (fst f, PStr (snd f))) (layer_fields layer)).
Proof.
  intros layer Ht. unfold get_layer_info, outcome. rewrite Ht. cbn.
  do 2 eexists. split; [reflexivity|]. split; [reflexivity|]. split.
  - intros n. apply lookup_fields_info.
  - intros Hnd. apply (fields_info_distinct (layer_fields layer) [] Hnd).
    reflexivity.
Qed.

Lemma get_layer_info_fields_witness :
  exists info fields_info : list (string * pyobj),
    outcome (get_layer_info (Some sample_layer)) = Ok (PDict info) /\
    lookup "fields" info = Some (PDict fields_info) /\
    (forall n, lookup n fields_info
               = match lookup n (rev (layer_fields sample_layer)) with
                 | Some t => Some (PStr t)
                 | None => None
                 end) /\
    (NoDup (map fst (layer_fields sample_layer)) ->
     fields_info = map (fun f => (fst f, PStr (snd f))) (layer_fields sample_layer)).
Proof.
  apply (get_layer_info_fields sample_layer). reflexivity.
Defined.

(** ** The paths through the export and upload functions *)

Lemma api_response_pair (response : Response) :
  api_response response = ([], outcome (api_response response)).
Proof.
  unfold api_response, response_json, outcome.
  destruct (status_code response =? 200)%Z; [|reflexivity].
  destruct (json response); reflexivity.
Qed.

(** Every path of [send_layer_as_geojson] for a vector layer. *)
Lemma send_layer_as_geojson_cases (w : World) (l : QgsMapLayer)
      (api_endpoint : string) :
  let temp_file := NamedTemporaryFile w ".geojson" in
  let written :=
    [EvTempFile temp_file; EvWriteVector temp_file "GeoJSON"]
      ++ (if (writeAsVectorFormat w l temp_file "GeoJSON" =? NoError)%Z
          then [EvPrint "success again!"] else []) in
  layer_type l = VectorLayer ->
  send_layer_as_geojson w (Some l) api_endpoint
  = match read w temp_file with
    | None => (written ++ [EvRead temp_file], Raise (OSError temp_file))
    | Some geojson_data =>
        (written ++ [ EvRead temp_file; EvRemove temp_file;
                      EvPost api_endpoint geojson_data ],
         match post w api_endpoint geojson_data with
         | Some response => outcome (api_response response)
         | None => Raise ConnectionError
         end)
    end.
Proof.
  intros temp_file written Hv. subst written.
  unfold send_layer_as_geojson, not_a_vector_layer. io_unfold. rewrite Hv.
  cbn. fold temp_file.
  destruct (writeAsVectorFormat w l temp_file "GeoJSON" =? NoError)%Z; cbn;
    (destruct (read w temp_file) as [geojson_data|]; cbn; [|reflexivity]);
    (destruct (post w api_endpoint geojson_data) as [response|]; cbn;
     [|reflexivity]);
    rewrite (api_response_pair response); reflexivity.
Qed.

(** Every path of [send_layer_as_geojson_using_gdal_] for a vector layer. *)
Lemma send_layer_as_geojson_using_gdal_cases (w : World) (l : QgsMapLayer)
      (api_endpoint : string) :
  let temp_file := NamedTemporaryFile w ".gpkg" in
  let geojson_temp_file := NamedTemporaryFile w ".geojson" in
  let error := writeAsVectorFormat w l temp_file "GPKG" in
  let cmd := join_spaces ["ogr2ogr"; "-f"; "GeoJSON"; geojson_temp_file; temp_file] in
  let exported := [EvTempFile temp_file; EvWriteVector temp_file "GPKG"] in
  let converted := exported ++ [EvTempFile geojson_temp_file; EvSystem cmd] in
  layer_type l = VectorLayer ->
  send_layer_as_geojson_using_gdal_ w (Some l) api_endpoint
  = if negb (error =? NoError)%Z
    then (exported ++ [EvRemove temp_file],
          Ok (PDict [("error",
                      PStr ("Failed to export layer to GPKG. Error code: "
                            ++ str_of_int error))]))
    else if negb (GetDriverByName w "GPKG")
    then (exported ++ [EvRemove temp_file],
          Ok (PDict [("error", PStr "GDAL does not support GeoPackage format")]))
    else if negb (driver_Open w temp_file)
    then (exported ++ [EvRemove temp_file],
          Ok (PDict [("error", PStr "Failed to open the GeoPackage file with OGR")]))
    else if negb (system w cmd =? 0)%Z
    then (converted ++ [EvRemove temp_file; EvRemove geojson_temp_file],
          Ok (PDict [("error",
                      PStr "Failed to convert GeoPackage to GeoJSON using ogr2ogr")]))
    else match read w geojson_temp_file with
         | None => (converted ++ [EvRead geojson_temp_file],
                    Raise (OSError geojson_temp_file))
         | Some geojson_data =>
             (converted ++ [ EvRead geojson_temp_file; EvRemove temp_file;
                             EvRemove geojson_temp_file;
                             EvPost api_endpoint geojson_data ],
              match post w api_endpoint geojson_data with
              | Some response => outcome (api_response response)
              | None => Raise ConnectionError
              end)
         end.
Proof.
  intros temp_file geojson_temp_file error cmd exported converted Hv.
  subst exported converted.
  unfold send_layer_as_geojson_using_gdal_, not_a_vector_layer. io_unfold.
  rewrite Hv. cbn. fold temp_file. fold geojson_temp_file. fold error.
  destruct (error =? NoError)%Z; cbn; [|reflexivity].
  destruct (GetDriverByName w "GPKG"); cbn; [|reflexivity].
  destruct (driver_Open w temp_file); cbn; [|reflexivity].
  subst cmd. cbn [join_spaces].
  destruct (system w _ =? 0)%Z; cbn; [|reflexivity].
  destruct (read w geojson_temp_file) as [geojson_data|]; cbn; [|reflexivity].
  destruct (post w api_endpoint geojson_data) as [response|]; cbn;
    [|reflexivity].
  rewrite (api_response_pair response). reflexivity.
Qed.

(** X9.  Without a layer, or with a layer that is not a vector layer, each of
    the three export and upload functions returns
    [{"error": "No active vector layer selected"}] and touches nothing: no
    file is created or written and nothing is posted. *)
Theorem no_vector_layer_guard :
  forall (w : World) (layer : option QgsMapLayer) (output_path api_endpoint : string),
    not_a_vector_layer layer = true ->
    export_layer_to_geojson w layer output_path = ([], Ok no_vector_layer) /\
    send_layer_as_geojson w layer api_endpoint = ([], Ok no_vector_layer) /\
    send_layer_as_geojson_using_gdal_ w layer api_endpoint
    = ([], Ok no_vector_layer).
Proof.
  intros w [l|] output_path api_endpoint H; [|repeat split].
  unfold export_layer_to_geojson, send_layer_as_geojson,
    send_layer_as_geojson_using_gdal_.
  rewrite H. repeat split.
Qed.

Lemma no_vector_layer_guard_witness :
  export_layer_to_geojson (sample_world NoError ok_response)
                          (Some sample_raster) "/out"
  = ([], Ok no_vector_layer) /\
  send_layer_as_geojson (sample_world NoError ok_response)
                        (Some sample_raster) "http://localhost/api"
  = ([], Ok no_vector_layer) /\
  send_layer_as_geojson_using_gdal_ (sample_world NoError ok_response)
                                    (Some sample_raster) "http://localhost/api"
  = ([], Ok no_vector_layer).
Proof.
  apply (no_vector_layer_guard (sample_world NoError ok_response)
                               (Some sample_raster) "/out" "http://localhost/api").
  reflexivity.
Defined.

(** X10.  For a vector layer, [export_layer_to_geojson] calls the writer
    once, on the file [<layer name>.geojson] joined to the output path with
    the driver ["GeoJSON"], and does nothing else; it returns the success
    mapping that names this file when the writer answers [NoError] and the
    error mapping with the writer's code otherwise. *)
Theorem export_layer_to_geojson_paths :
  forall (w : World) (l : QgsMapLayer) (output_path : string),
    let output_file := path_join w output_path (layer_name l ++ ".geojson") in
    let error := writeAsVectorFormat w l output_file "GeoJSON" in
    layer_type l = VectorLayer ->
    trace (export_layer_to_geojson w (Some l) output_path)
    = [EvWriteVector output_file "GeoJSON"] /\
    (error = NoError ->
     outcome (export_layer_to_geojson w (Some l) output_path)
     = Ok (PDict [("success",
                   PStr ("Layer exported successfully to " ++ output_file))])) /\
    (error <> NoError ->
     outcome (export_layer_to_geojson w (Some l) output_path)
     = Ok (PDict [("error",
                   PStr ("Failed to export layer. Error code: "
                         ++ str_of_int error))])).
Proof.
  intros w l output_path output_file error Hv.
  unfold export_layer_to_geojson, not_a_vector_layer, trace, outcome.
  io_unfold. rewrite Hv. cbn. fold output_file. fold error.
  split; [destruct (error =? NoError)%Z; reflexivity|].
  split; intros H.
  - rewrite H. reflexivity.
  - apply Z.eqb_neq in H. rewrite H. reflexivity.
Qed.

Lemma export_layer_to_geojson_paths_witness :
  trace (export_layer_to_geojson (sample_world NoError ok_response)
                                 (Some sample_layer) "/out")
  = [EvWriteVector "/out/sites.geojson" "GeoJSON"] /\
  outcome (export_layer_to_geojson (sample_world NoError ok_response)
                                   (Some sample_layer) "/out")
  = Ok (PDict [("success",
                PStr "Layer exported successfully to /out/sites.geojson")]).
Proof.
  destruct (export_layer_to_geojson_paths (sample_world NoError ok_response)
                                          sample_layer "/out" eq_refl)
    as [Ht [Hok _]].
  split; [exact Ht | apply Hok; reflexivity].
Defined.

(** X11.  When the temporary file can be read, [send_layer_as_geojson]
    removes it and then posts once, to the given endpoint, the text it has
    read; the answer of the endpoint changes the outcome only, not what is
    done. *)
Theorem send_layer_as_geojson_posts_once :
  forall (w : World) (l : QgsMapLayer) (api_endpoint geojson_data : string),
    let temp_file := NamedTemporaryFile w ".geojson" in
    layer_type l = VectorLayer ->
    read w temp_file = Some geojson_data ->
    filter is_post (trace (send_layer_as_geojson w (Some l) api_endpoint))
    = [EvPost api_endpoint geojson_data] /\
    filter is_remove (trace (send_layer_as_geojson w (Some l) api_endpoint))
    = [EvRemove temp_file] /\
    exists before,
      trace (send_layer_as_geojson w (Some l) api_endpoint)
      = before ++ [ EvRead temp_file; EvRemove temp_file;
                    EvPost api_endpoint geojson_data ].
Proof.
  intros w l api_endpoint geojson_data temp_file Hv Hread.
  rewrite (send_layer_as_geojson_cases w l api_endpoint Hv).
  fold temp_file. rewrite Hread. unfold trace. cbn [fst].
  destruct (writeAsVectorFormat w l temp_file "GeoJSON" =? NoError)%Z;
    (split; [reflexivity|]); (split; [reflexivity|]);
    eexists; reflexivity.
Qed.

Lemma send_layer_as_geojson_posts_once_witness :
  filter is_post
         (trace (send_layer_as_geojson (sample_world NoError not_found_response)
                                       (Some sample_layer) "http://localhost/api"))
  = [EvPost "http://localhost/api" "{}"].
Proof.
  apply (send_layer_as_geojson_posts_once
           (sample_world NoError not_found_response) sample_layer
           "http://localhost/api" "{}" eq_refl eq_refl).
Defined.

(** X12.  When the temporary file cannot be read, [send_layer_as_geojson]
    raises the error of [open]; the temporary file is not removed and
    nothing is posted. *)
Theorem send_layer_as_geojson_unreadable :
  forall (w : World) (l : QgsMapLayer) (api_endpoint : string),
    let temp_file := NamedTemporaryFile w ".geojson" in
    layer_type l = VectorLayer ->
    read w temp_file = None ->
    outcome (send_layer_as_geojson w (Some l) api_endpoint)
    = Raise (OSError temp_file) /\
    In (EvTempFile temp_file)
       (trace (send_layer_as_geojson w (Some l) api_endpoint)) /\
    filter is_remove (trace (send_layer_as_geojson w (Some l) api_endpoint)) = [] /\
    filter is_post (trace (send_layer_as_geojson w (Some l) api_endpoint)) = [].
Proof.
  intros w l api_endpoint temp_file Hv Hread.
  rewrite (send_layer_as_geojson_cases w l api_endpoint Hv).
  fold temp_file. rewrite Hread. unfold trace, outcome. cbn [fst snd].
  destruct (writeAsVectorFormat w l temp_file "GeoJSON" =? NoError)%Z;
    cbn; auto.
Qed.

Lemma send_layer_as_geojson_unreadable_witness :
  outcome (send_layer_as_geojson (unreadable_world NoError ok_response)
                                 (Some sample_layer) "http://localhost/api")
  = Raise (OSError "/tmp/tmpk3v9.geojson").
Proof.
  apply (send_layer_as_geojson_unreadable
           (unreadable_world NoError ok_response) sample_layer
           "http://localhost/api" eq_refl eq_refl).
Defined.

(** X13.  [send_layer_as_geojson_using_gdal_] posts only after every step
    before has succeeded: the export to GeoPackage, the driver lookup, the
    opening, the [ogr2ogr] run and the reading of its output; what it posts
    is that output, to the given endpoint. *)
Theorem gdal_upload_only_after_success :
  forall (w : World) (l : QgsMapLayer) (api_endpoint url data : string),
    let temp_file := NamedTemporaryFile w ".gpkg" in
    let geojson_temp_file := NamedTemporaryFile w ".geojson" in
    layer_type l = VectorLayer ->
    In (EvPost url data)
       (trace (send_layer_as_geojson_using_gdal_ w (Some l) api_endpoint)) ->
    writeAsVectorFormat w l temp_file "GPKG" = NoError /\
    GetDriverByName w "GPKG" = true /\
    driver_Open w temp_file = true /\
    system w (join_spaces ["ogr2ogr"; "-f"; "GeoJSON"; geojson_temp_file; temp_file])
    = 0%Z /\
    read w geojson_temp_file = Some data /\
    url = api_endpoint.
Proof.
  intros w l api_endpoint url data temp_file geojson_temp_file Hv.
  rewrite (send_layer_as_geojson_using_gdal_cases w l api_endpoint Hv).
  fold temp_file. fold geojson_temp_file. unfold trace.
  destruct (writeAsVectorFormat w l temp_file "GPKG" =? NoError)%Z eqn:He;
    cbn [negb];
    [|cbn; intros H; repeat destruct H as [H|H]; try discriminate H; destruct H].
  destruct (GetDriverByName w "GPKG");
    cbn [negb];
    [|cbn; intros H; repeat destruct H as [H|H]; try discriminate H; destruct H].
  destruct (driver_Open w temp_file);
    cbn [negb];
    [|cbn; intros H; repeat destruct H as [H|H]; try discriminate H; destruct H].
  destruct (system w _ =? 0)%Z eqn:Hs;
    cbn [negb];
    [|cbn; intros H; repeat destruct H as [H|H]; try discriminate H; destruct H].
  destruct (read w geojson_temp_file) as [geojson_data|];
    cbn; intros H; repeat destruct H as [H|H]; try discriminate H;
    try (destruct H; fail).
  injection H as <- <-.
  apply Z.eqb_eq in He, Hs. repeat split; assumption.
Qed.

Lemma gdal_upload_only_after_success_witness :
  writeAsVectorFormat (sample_world NoError ok_response) sample_layer
                      "/tmp/tmpk3v9.gpkg" "GPKG" = NoError /\
  read (sample_world NoError ok_response) "/tmp/tmpk3v9.geojson" = Some "{}".
Proof.
  destruct (gdal_upload_only_after_success
              (sample_world NoError ok_response) sample_layer
              "http://localhost/api" "http://localhost/api" "{}" eq_refl)
    as [H1 [_ [_ [_ [H5 _]]]]].
  - cbn. do 7 right. left. reflexivity.
  - split; [exact H1 | exact H5].
Defined.

(** X14.  After a successful export to GeoPackage,
    [send_layer_as_geojson_using_gdal_] returns an error mapping of its own
    for each later failure: no GPKG driver, a file that does not open, an
    [ogr2ogr] run that ends with a code other than 0.  In each case the
    temporary files made so far are removed and nothing is posted. *)
Theorem gdal_conversion_failures :
  forall (w : World) (l : QgsMapLayer) (api_endpoint : string),
    let temp_file := NamedTemporaryFile w ".gpkg" in
    let geojson_temp_file := NamedTemporaryFile w ".geojson" in
    let cmd := join_spaces ["ogr2ogr"; "-f"; "GeoJSON"; geojson_temp_file; temp_file] in
    layer_type l = VectorLayer ->
    writeAsVectorFormat w l temp_file "GPKG" = NoError ->
    (GetDriverByName w "GPKG" = false ->
     send_layer_as_geojson_using_gdal_ w (Some l) api_endpoint
     = ([EvTempFile temp_file; EvWriteVector temp_file "GPKG"; EvRemove temp_file],
        Ok (PDict [("error", PStr "GDAL does not support GeoPackage format")]))) /\
    (GetDriverByName w "GPKG" = true -> driver_Open w temp_file = false ->
     send_layer_as_geojson_using_gdal_ w (Some l) api_endpoint
     = ([EvTempFile temp_file; EvWriteVector temp_file "GPKG"; EvRemove temp_file],
        Ok (PDict [("error",
                    PStr "Failed to open the GeoPackage file with OGR")]))) /\
    (GetDriverByName w "GPKG" = true -> driver_Open w temp_file = true ->
     system w cmd <> 0%Z ->
     send_layer_as_geojson_using_gdal_ w (Some l) api_endpoint
     = ([ EvTempFile temp_file; EvWriteVector temp_file "GPKG";
          EvTempFile geojson_temp_file; EvSystem cmd;
          EvRemove temp_file; EvRemove geojson_temp_file ],
        Ok (PDict [("error",
                    PStr "Failed to convert GeoPackage to GeoJSON using ogr2ogr")]))).
Proof.
  intros w l api_endpoint temp_file geojson_temp_file cmd Hv He.
  rewrite (send_layer_as_geojson_using_gdal_cases w l api_endpoint Hv).
  fold temp_file. fold geojson_temp_file. fold cmd. rewrite He.
  cbn [Z.eqb NoError negb]. split; [|split].
  - intros ->. reflexivity.
  - intros -> ->. reflexivity.
  - intros -> -> Hs. apply Z.eqb_neq in Hs. rewrite Hs. reflexivity.
Qed.

Lemma gdal_conversion_failures_witness :
  send_layer_as_geojson_using_gdal_ (conversion_world 1 (Some ok_response))
                                    (Some sample_layer) "http://localhost/api"
  = ([ EvTempFile "/tmp/tmpk3v9.gpkg"; EvWriteVector "/tmp/tmpk3v9.gpkg" "GPKG";
       EvTempFile "/tmp/tmpk3v9.geojson";
       EvSystem "ogr2ogr -f GeoJSON /tmp/tmpk3v9.geojson /tmp/tmpk3v9.gpkg";
       EvRemove "/tmp/tmpk3v9.gpkg"; EvRemove "/tmp/tmpk3v9.geojson" ],
     Ok (PDict [("error",
                 PStr "Failed to convert GeoPackage to GeoJSON using ogr2ogr")])).
Proof.
  apply (proj2 (proj2 (gdal_conversion_failures
                         (conversion_world 1 (Some ok_response)) sample_layer
                         "http://localhost/api" eq_refl eq_refl)));
    [reflexivity | reflexivity | discriminate].
Defined.

(** X15.  [send_layer_as_geojson_using_gdal_] removes every temporary file
    it has made, on every path but one: when the output of [ogr2ogr] cannot
    be read, the error of [open] is raised and both temporary files are
    left. *)
Theorem gdal_temporary_files :
  forall (w : World) (l : QgsMapLayer) (api_endpoint : string),
    let geojson_temp_file := NamedTemporaryFile w ".geojson" in
    let run := send_layer_as_geojson_using_gdal_ w (Some l) api_endpoint in
    layer_type l = VectorLayer ->
    (outcome run <> Raise (OSError geojson_temp_file) ->
     forall name, In (EvTempFile name) (trace run) -> In (EvRemove name) (trace run)) /\
    (outcome run = Raise (OSError geojson_temp_file) ->
     filter is_remove (trace run) = [] /\ filter is_post (trace run) = []).
Proof.
  intros w l api_endpoint geojson_temp_file run Hv. subst run.
  rewrite (send_layer_as_geojson_using_gdal_cases w l api_endpoint Hv).
  fold geojson_temp_file. unfold trace, outcome.
  destruct (writeAsVectorFormat w l (NamedTemporaryFile w ".gpkg") "GPKG"
            =? NoError)%Z; cbn [negb].
  2: { cbn. split; [|discriminate].
       intros _ name H. repeat destruct H as [H|H]; try discriminate H;
         [injection H as <-; auto | destruct H]. }
  destruct (GetDriverByName w "GPKG"); cbn [negb].
  2: { cbn. split; [|discriminate].
       intros _ name H. repeat destruct H as [H|H]; try discriminate H;
         [injection H as <-; auto | destruct H]. }
  destruct (driver_Open w (NamedTemporaryFile w ".gpkg")); cbn [negb].
  2: { cbn. split; [|discriminate].
       intros _ name H. repeat destruct H as [H|H]; try discriminate H;
         [injection H as <-; auto | destruct H]. }
  destruct (system w _ =? 0)%Z; cbn [negb].
  2: { cbn. split; [|discriminate].
       intros _ name H. repeat destruct H as [H|H]; try discriminate H;
         try (injection H as <-; auto 10); destruct H. }
  destruct (read w geojson_temp_file) as [geojson_data|]; cbn.
  - split.
    + intros _ name H. repeat destruct H as [H|H]; try discriminate H;
        try (injection H as <-; auto 10); destruct H.
    + destruct (post w api_endpoint geojson_data) as [response|];
        [|discriminate].
      unfold api_response, response_json.
      destruct (status_code response =? 200)%Z; [|discriminate].
      destruct (json response); discriminate.
  - split; [congruence | auto].
Qed.

Lemma gdal_temporary_files_witness :
  filter is_remove
         (trace (send_layer_as_geojson_using_gdal_
                   (unreadable_world NoError ok_response)
                   (Some sample_layer) "http://localhost/api")) = [] /\
  In (EvRemove "/tmp/tmpk3v9.gpkg")
     (trace (send_layer_as_geojson_using_gdal_
               (sample_world NoError ok_response)
               (Some sample_layer) "http://localhost/api")).
Proof.
  split.
  - apply (proj2 (gdal_temporary_files (unreadable_world NoError ok_response)
                                       sample_layer "http://localhost/api"
                                       eq_refl)).
    reflexivity.
  - apply (proj1 (gdal_temporary_files (sample_world NoError ok_response)
                                       sample_layer "http://localhost/api"
                                       eq_refl)).
    + discriminate.
    + cbn. left. reflexivity.
Defined.

(** X16.  Once the file is read, both upload functions post before anything
    can go wrong with the answer: when no answer comes they raise
    [ConnectionError], and when the answer has status 200 and a body that is
    not JSON they raise the decoding error of [response.json()]; no mapping
    is returned in these cases. *)
Theorem upload_raises_after_post :
  forall (w : World) (l : QgsMapLayer) (api_endpoint geojson_data : string),
    let temp_file := NamedTemporaryFile w ".gpkg" in
    let geojson_temp_file := NamedTemporaryFile w ".geojson" in
    let answer_fails (res : result pyobj) :=
      (post w api_endpoint geojson_data = None -> res = Raise ConnectionError) /\
      (forall response,
          post w api_endpoint geojson_data = Some response ->
          status_code response = 200%Z -> json response = None ->
          res = Raise JSONDecodeError) in
    layer_type l = VectorLayer ->
    read w geojson_temp_file = Some geojson_data ->
    (answer_fails (outcome (send_layer_as_geojson w (Some l) api_endpoint)) /\
     In (EvPost api_endpoint geojson_data)
        (trace (send_layer_as_geojson w (Some l) api_endpoint))) /\
    (writeAsVectorFormat w l temp_file "GPKG" = NoError ->
     GetDriverByName w "GPKG" = true ->
     driver_Open w temp_file = true ->
     system w (join_spaces [ "ogr2ogr"; "-f"; "GeoJSON";
                             geojson_temp_file; temp_file ]) = 0%Z ->
     answer_fails
       (outcome (send_layer_as_geojson_using_gdal_ w (Some l) api_endpoint)) /\
     In (EvPost api_endpoint geojson_data)
        (trace (send_layer_as_geojson_using_gdal_ w (Some l) api_endpoint))).
Proof.
  intros w l api_endpoint geojson_data temp_file geojson_temp_file answer_fails
         Hv Hread.
  subst answer_fails. cbv beta. split.
  - rewrite (send_layer_as_geojson_cases w l api_endpoint Hv).
    fold geojson_temp_file. rewrite Hread. unfold outcome, trace. cbn [fst snd].
    split.
    + split.
      * intros ->. reflexivity.
      * intros response -> H200 Hj. apply api_response_not_json; assumption.
    + apply in_or_app. right. cbn. auto.
  - intros He Hd Ho Hs.
    rewrite (send_layer_as_geojson_using_gdal_cases w l api_endpoint Hv).
    fold temp_file. fold geojson_temp_file.
    rewrite He, Hd, Ho, Hs, Hread. cbn [Z.eqb NoError negb].
    unfold outcome, trace. cbn [fst snd]. split.
    + split.
      * intros ->. reflexivity.
      * intros response -> H200 Hj. apply api_response_not_json; assumption.
    + apply in_or_app. right. cbn. auto.
Qed.

Lemma upload_raises_after_post_witness :
  outcome (send_layer_as_geojson (sample_world NoError plain_text_response)
                                 (Some sample_layer) "http://localhost/api")
  = Raise JSONDecodeError /\
  outcome (send_layer_as_geojson_using_gdal_ (conversion_world 0 None)
                                             (Some sample_layer)
                                             "http://localhost/api")
  = Raise ConnectionError.
Proof.
  split.
  - apply (proj2 (proj1 (proj1 (upload_raises_after_post
                                  (sample_world NoError plain_text_response)
                                  sample_layer "http://localhost/api" "{}"
                                  eq_refl eq_refl)))
                 plain_text_response);
      reflexivity.
  - apply (proj1 (proj1 (proj2 (upload_raises_after_post
                                  (conversion_world 0 None)
                                  sample_layer "http://localhost/api" "{}"
                                  eq_refl eq_refl)
                               eq_refl eq_refl eq_refl eq_refl))).
    reflexivity.
Defined.

(** ** The shape of the returned mappings *)

Lemma api_response_shape (response : Response) (v : pyobj) :
  outcome (api_response response) = Ok v ->
  (exists d, v = PDict d) /\
  xorb (has_key "success" v) (has_key "error" v) = true.
Proof.
  unfold api_response, response_json, outcome.
  destruct (status_code response =? 200)%Z.
  - destruct (json response); cbn; intros H; [|discriminate H].
    injection H as <-. split; [eexists; reflexivity | reflexivity].
  - cbn. intros H. injection H as <-.
    split; [eexists; reflexivity | reflexivity].
Qed.

Lemma vector_layer_type (l : QgsMapLayer) :
  not_a_vector_layer (Some l) = false -> layer_type l = VectorLayer.
Proof.
  unfold not_a_vector_layer. destruct (layer_type l); congruence.
Qed.

(** X17.  Whatever one of the three export and upload functions returns is a
    mapping that has exactly one of the keys ["success"] and ["error"]. *)
Theorem returned_mapping_shape :
  forall (w : World) (layer : option QgsMapLayer) (arg : string) (v : pyobj),
    outcome (export_layer_to_geojson w layer arg) = Ok v \/
    outcome (send_layer_as_geojson w layer arg) = Ok v \/
    outcome (send_layer_as_geojson_using_gdal_ w layer arg) = Ok v ->
    (exists d, v = PDict d) /\
    xorb (has_key "success" v) (has_key "error" v) = true.
Proof.
  intros w layer arg v H.
  destruct (not_a_vector_layer layer) eqn:Hg.
  - assert (E : v = no_vector_layer).
    { unfold export_layer_to_geojson, send_layer_as_geojson,
        send_layer_as_geojson_using_gdal_, outcome in H.
      destruct layer as [l|]; [rewrite Hg in H|];
        destruct H as [H|[H|H]]; injection H as <-; reflexivity. }
    subst v. split; [eexists; reflexivity | reflexivity].
  - destruct layer as [l|]; [|discriminate Hg].
    pose proof (vector_layer_type l Hg) as Hv.
    destruct H as [H|[H|H]].
    + destruct (export_layer_to_geojson_writer_error w l arg Hv) as [Hok Herr].
      destruct (Z.eq_dec (writeAsVectorFormat
                            w l (path_join w arg (layer_name l ++ ".geojson"))
                            "GeoJSON") NoError) as [E|E].
      * rewrite (Hok E) in H. injection H as <-.
        split; [eexists; reflexivity | reflexivity].
      * rewrite (Herr E) in H. injection H as <-.
        split; [eexists; reflexivity | reflexivity].
    + rewrite (send_layer_as_geojson_cases w l arg Hv) in H.
      destruct (read w (NamedTemporaryFile w ".geojson")) as [data|];
        [|discriminate H].
      unfold outcome at 1 in H. cbn [snd] in H.
      destruct (post w arg data) as [response|]; [|discriminate H].
      apply (api_response_shape response v H).
    + rewrite (send_layer_as_geojson_using_gdal_cases w l arg Hv) in H.
      unfold outcome at 1 in H.
      repeat match type of H with
             | snd (if ?c then _ else _) = _ => destruct c; cbn [snd] in H
             end;
        try (injection H as <-; split; [eexists; reflexivity | reflexivity]).
      destruct (read w (NamedTemporaryFile w ".geojson")) as [data|];
        [|discriminate H].
      cbn [snd] in H.
      destruct (post w arg data) as [response|]; [|discriminate H].
      apply (api_response_shape response v H).
Qed.

Lemma returned_mapping_shape_witness :
  (exists d, PDict [("error", PStr "Failed to export layer. Error code: 2")]
             = PDict d) /\
  xorb (has_key "success"
                (PDict [("error", PStr "Failed to export layer. Error code: 2")]))
       (has_key "error"
                (PDict [("error", PStr "Failed to export layer. Error code: 2")]))
  = true.
Proof.
  apply (returned_mapping_shape (sample_world 2%Z ok_response)
                                (Some sample_layer) "/out").
  left. reflexivity.
Defined.

(** ** The paths through [convert_to_geojson_using_gdal] *)

Lemma for_each_features (fs : list string) :
  for_each (fun feature => emit (EvCreateFeature feature)) fs
  = (map EvCreateFeature fs, Ok tt).
Proof.
  induction fs as [|f fs IH]; [reflexivity|].
  cbn [for_each]. rewrite IH. reflexivity.
Qed.

Lemma for_each_copy_layer_events (input_ds : list OgrLayer) :
  for_each copy_layer input_ds = (flat_map copy_events input_ds, Ok tt).
Proof.
  induction input_ds as [|input_layer input_ds IH]; [reflexivity|].
  cbn [for_each flat_map]. rewrite IH. unfold copy_layer, copy_events.
  rewrite for_each_features. reflexivity.
Qed.

(** Every path of [convert_to_geojson_using_gdal]. *)
Lemma convert_to_geojson_using_gdal_cases (w : World)
      (globals : list (string * pyobj)) (input_path : string)
      (output_path : option string) :
  let output_file :=
    match output_path with
    | None => (uuid4_hex w ++ ".geojson")%string
    | Some p => p
    end in
  convert_to_geojson_using_gdal w globals input_path output_path
  = match ogr_Open w input_path with
    | None => ([], Ok (PStr ("Failed to open input file: " ++ input_path)))
    | Some input_ds =>
        if negb (GetDriverByName w "GeoJSON")
        then ([], Ok (PStr "GDAL GeoJSON driver not found"))
        else if negb (CreateDataSource w output_file)
        then ([], Ok (PStr ("Failed to create output GeoJSON file: "
                            ++ output_file)))
        else
          let copied := flat_map copy_events input_ds in
          match read w output_file with
          | None => (copied ++ [EvRead output_file], Raise (OSError output_file))
          | Some geojson_data =>
              match lookup "api_endpoint" globals with
              | None => (copied ++ [EvRead output_file; EvRemove output_file],
                         Raise (NameError "api_endpoint"))
              | Some (PStr url) =>
                  (copied ++ [ EvRead output_file; EvRemove output_file;
                               EvPost url geojson_data ],
                   match post w url geojson_data with
                   | Some response => outcome (api_response response)
                   | None => Raise ConnectionError
                   end)
              | Some _ => (copied ++ [EvRead output_file; EvRemove output_file],
                           Raise RequestException)
              end
          end
    end.
Proof.
  intros output_file. unfold convert_to_geojson_using_gdal. fold output_file.
  destruct (ogr_Open w input_path) as [input_ds|]; [|reflexivity].
  destruct (GetDriverByName w "GeoJSON"); cbn [negb]; [|reflexivity].
  destruct (CreateDataSource w output_file); cbn [negb]; [|reflexivity].
  rewrite for_each_copy_layer_events. io_unfold. cbn.
  destruct (read w output_file) as [geojson_data|]; cbn; [|reflexivity].
  destruct (lookup "api_endpoint" globals) as [v|]; cbn; [|reflexivity].
  destruct v; cbn; try reflexivity.
  destruct (post w s geojson_data) as [response|]; cbn; [|reflexivity].
  rewrite (api_response_pair response). reflexivity.
Qed.

Lemma copy_events_no_post (input_ds : list OgrLayer) :
  filter is_post (flat_map copy_events input_ds) = [].
Proof.
  induction input_ds as [|input_layer input_ds IH]; [reflexivity|].
  cbn [flat_map]. rewrite filter_app, IH, app_nil_r.
  unfold copy_events. cbn. induction (features input_layer); auto.
Qed.

(** X18.  As the module stands, a call of [convert_to_geojson_using_gdal]
    never posts and never returns a mapping or the path of a file: it
    returns one of three messages before it has touched anything, or raises
    the error of [open] or the [NameError] for [api_endpoint]. *)
Theorem convert_to_geojson_outcomes :
  forall (w : World) (input_path : string) (output_path : option string),
    let output_file :=
      match output_path with
      | None => (uuid4_hex w ++ ".geojson")%string
      | Some p => p
      end in
    let run := convert_to_geojson_using_gdal w ioutils_globals
                                             input_path output_path in
    filter is_post (trace run) = [] /\
    (forall v, outcome run = Ok v ->
       trace run = [] /\
       (v = PStr ("Failed to open input file: " ++ input_path) \/
        v = PStr "GDAL GeoJSON driver not found" \/
        v = PStr ("Failed to create output GeoJSON file: " ++ output_file))) /\
    (forall e, outcome run = Raise e ->
       e = OSError output_file \/ e = NameError "api_endpoint").
Proof.
  intros w input_path output_path output_file run. subst run.
  rewrite (convert_to_geojson_using_gdal_cases w ioutils_globals
                                               input_path output_path).
  fold output_file. unfold trace, outcome.
  destruct (ogr_Open w input_path) as [input_ds|].
  2: { cbn. split; [reflexivity|]. split; [|intros e H; discriminate H].
       intros v H. injection H as <-. auto. }
  destruct (GetDriverByName w "GeoJSON"); cbn [negb].
  2: { cbn. split; [reflexivity|]. split; [|intros e H; discriminate H].
       intros v H. injection H as <-. auto. }
  destruct (CreateDataSource w output_file); cbn [negb].
  2: { cbn. split; [reflexivity|]. split; [|intros e H; discriminate H].
       intros v H. injection H as <-. auto. }
  cbv zeta. change (lookup "api_endpoint" ioutils_globals) with (@None pyobj).
  destruct (read w output_file) as [geojson_data|]; cbn [fst snd];
    (split; [rewrite filter_app, copy_events_no_post; reflexivity|]);
    (split; [discriminate|]);
    intros e H; injection H as <-; auto.
Qed.

(** X19.  With a global [api_endpoint] bound to a URL, a call of
    [convert_to_geojson_using_gdal] that copies and reads back its output
    posts that output, once, to the URL, and handles the answer as the
    upload functions do. *)
Theorem convert_to_geojson_with_endpoint :
  forall (w : World) (globals : list (string * pyobj)) (input_path url : string)
         (output_path : option string) (input_ds : list OgrLayer)
         (geojson_data : string) (response : Response),
    let output_file :=
      match output_path with
      | None => (uuid4_hex w ++ ".geojson")%string
      | Some p => p
      end in
    lookup "api_endpoint" globals = Some (PStr url) ->
    ogr_Open w input_path = Some input_ds ->
    GetDriverByName w "GeoJSON" = true ->
    CreateDataSource w output_file = true ->
    read w output_file = Some geojson_data ->
    post w url geojson_data = Some response ->
    outcome (convert_to_geojson_using_gdal w globals input_path output_path)
    = outcome (api_response response) /\
    filter is_post
           (trace (convert_to_geojson_using_gdal w globals input_path output_path))
    = [EvPost url geojson_data].
Proof.
  intros w globals input_path url output_path input_ds geojson_data response
         output_file Hg Hopen Hdrv Hcreate Hread Hpost.
  rewrite (convert_to_geojson_using_gdal_cases w globals input_path output_path).
  fold output_file. rewrite Hopen, Hdrv, Hcreate, Hread, Hg, Hpost.
  cbn [negb]. unfold outcome, trace. cbn [fst snd]. split; [reflexivity|].
  rewrite filter_app, copy_events_no_post. reflexivity.
Qed.

Lemma convert_to_geojson_with_endpoint_witness :
  outcome (convert_to_geojson_using_gdal
             (sample_world NoError not_found_response)
             (globals_with_endpoint "http://localhost/api")
             "/data/sites.shp" None)
  = Ok (PDict [ ("error", PStr "Failed to send GeoJSON to API. Status code: 404");
                ("response", PStr "Not Found") ]).
Proof.
  apply (proj1 (convert_to_geojson_with_endpoint
                  (sample_world NoError not_found_response)
                  (globals_with_endpoint "http://localhost/api")
                  "/data/sites.shp" "http://localhost/api" None
                  [ {| GetName := "sites"; GetGeomType := 1;
                       schema := ["id"]; features := ["f1"; "f2"] |} ]
                  "{}" not_found_response
                  eq_refl eq_refl eq_refl eq_refl eq_refl eq_refl)).
Defined.

(** X20.  A call of [convert_to_geojson_using_gdal] that opens its input
    and creates its output copies every layer in order, each with its fields
    and then its features in order, reads the output back and removes it,
    also when the caller has named the output file. *)
Theorem convert_to_geojson_copies_and_removes :
  forall (w : World) (globals : list (string * pyobj)) (input_path : string)
         (output_path : option string) (input_ds : list OgrLayer)
         (geojson_data : string),
    let output_file :=
      match output_path with
      | None => (uuid4_hex w ++ ".geojson")%string
      | Some p => p
      end in
    ogr_Open w input_path = Some input_ds ->
    GetDriverByName w "GeoJSON" = true ->
    CreateDataSource w output_file = true ->
    read w output_file = Some geojson_data ->
    exists after,
      trace (convert_to_geojson_using_gdal w globals input_path output_path)
      = flat_map (fun input_layer =>
                    EvCreateLayer (GetName input_layer) (GetGeomType input_layer)
                    :: EvCreateFields (schema input_layer)
                    :: map EvCreateFeature (features input_layer))
                 input_ds
        ++ EvRead output_file :: EvRemove output_file :: after.
Proof.
  intros w globals input_path output_path input_ds geojson_data output_file
         Hopen Hdrv Hcreate Hread.
  rewrite (convert_to_geojson_using_gdal_cases w globals input_path output_path).
  fold output_file. rewrite Hopen, Hdrv, Hcreate, Hread. cbn [negb].
  unfold trace. fold copy_events.
  destruct (lookup "api_endpoint" globals) as [v|];
    [destruct v|]; cbn [fst]; eexists; reflexivity.
Qed.

Lemma convert_to_geojson_copies_and_removes_witness :
  exists after,
    trace (convert_to_geojson_using_gdal (sample_world NoError ok_response)
                                         ioutils_globals "/data/sites.shp"
                                         (Some "out.geojson"))
    = [ EvCreateLayer "sites" 1; EvCreateFields ["id"];
        EvCreateFeature "f1"; EvCreateFeature "f2" ]
      ++ EvRead "out.geojson" :: EvRemove "out.geojson" :: after.
Proof.
  apply (convert_to_geojson_copies_and_removes
           (sample_world NoError ok_response) ioutils_globals "/data/sites.shp"
           (Some "out.geojson")
           [ {| GetName := "sites"; GetGeomType := 1;
                schema := ["id"]; features := ["f1"; "f2"] |} ] "{}"
           eq_refl eq_refl eq_refl eq_refl).
Defined.

(** ** The status code in the error mapping *)

Lemma to_int_not_nil (z : Z) :
  Z.to_int z <> Decimal.Pos Decimal.Nil /\ Z.to_int z <> Decimal.Neg Decimal.Nil.
Proof.
  destruct z as [|p|p]; simpl; split; try discriminate;
    intros H; injection H as H;
    exact (DecimalPos.Unsigned.to_uint_nonnil p H).
Qed.

Lemma str_of_int_inj (a b : Z) : str_of_int a = str_of_int b -> a = b.
Proof.
  unfold str_of_int. intros H.
  apply DecimalZ.to_int_inj.
  destruct (to_int_not_nil a) as [Ha1 Ha2].
  destruct (to_int_not_nil b) as [Hb1 Hb2].
  pose proof (NilZero.isi (Z.to_int a) Ha1 Ha2) as Ia.
  pose proof (NilZero.isi (Z.to_int b) Hb1 Hb2) as Ib.
  rewrite H in Ia. rewrite Ia in Ib. injection Ib as E. exact E.
Qed.

(** X21.  The error mapping returned for an answer with a status other than
    200 tells the status code and the body text: two such answers that give
    the same mapping have the same status code and the same text. *)
Theorem error_mapping_tells_status :
  forall r1 r2 : Response,
    status_code r1 <> 200%Z -> status_code r2 <> 200%Z ->
    outcome (api_response r1) = outcome (api_response r2) ->
    status_code r1 = status_code r2 /\ text r1 = text r2.
Proof.
  intros r1 r2 H1 H2. unfold api_response, outcome.
  apply Z.eqb_neq in H1, H2. rewrite H1, H2. cbn [snd ret].
  intros H. injection H as Hcode Htext.
  split; [apply str_of_int_inj; exact Hcode | exact Htext].
Qed.

Lemma error_mapping_tells_status_witness :
  status_code not_found_response = status_code not_found_response /\
  text not_found_response = text not_found_response.
Proof.
  apply (error_mapping_tells_status not_found_response not_found_response);
    [discriminate | discriminate | reflexivity].
Defined.

Lemma normalized_identifier_length_witness :
  str_replace "img1.png" ".jpg" "" = "img1.png" /\
  (String.length (str_replace "a.jpg.jpg" ".jpg" "") <= 9)%nat.
Proof.
  split.
  - apply (proj2 (proj2 (normalized_identifier_length "img1.png"))).
    reflexivity.
  - apply (proj1 (normalized_identifier_length "a.jpg.jpg")).
Defined.

Lemma convert_to_geojson_outcomes_witness :
  OSError "out.geojson" = OSError "out.geojson" \/
  OSError "out.geojson" = NameError "api_endpoint".
Proof.
  apply (proj2 (proj2 (convert_to_geojson_outcomes
                         (unreadable_world NoError ok_response)
                         "/data/sites.shp" (Some "out.geojson")))).
  reflexivity.
Defined.

(** ** The columns that do not reach the result *)

Lemma same_used_columns_ids (ds ds' : list DetectionRow) :
  Forall2 same_used_columns ds ds' -> map Imagename ds = map Imagename ds'.
Proof.
  induction 1 as [|d d' ds ds' [Hi _] _ IH]; [reflexivity|].
  simpl. rewrite Hi, IH. reflexivity.
Qed.

Lemma same_used_columns_group (k : string) (ds ds' : list DetectionRow) :
  Forall2 same_used_columns ds ds' ->
  group_record (rows_of k ds) = group_record (rows_of k ds').
Proof.
  unfold group_record, rows_of.
  induction 1 as [|d d' ds ds' [Hi [H1 [H2 [H3 [H4 [Hs Hc]]]]]] _ IH];
    [reflexivity|].
  injection IH as IHb IHs IHc.
  assert (Hid : has_id k d = has_id k d') by (unfold has_id; rewrite Hi; reflexivity).
  assert (Hb : bbox_of d = bbox_of d')
    by (unfold bbox_of; rewrite H1, H2, H3, H4; reflexivity).
  cbn [filter]. rewrite Hid. destruct (has_id k d'); cbn [map];
    rewrite ?Hb, ?Hs, ?Hc, IHb, IHs, IHc; reflexivity.
Qed.

Lemma image_ids_of_column (ds : list DetectionRow) :
  image_ids ds = flat_map (fun o => key_of (normalize o)) (map Imagename ds).
Proof.
  unfold image_ids. rewrite flat_map_map_comm. reflexivity.
Qed.

(** X22.  The columns [Detection], [Frame_Identifier],
    [detection_Confidence] and [Target_Length] do not reach the result: two
    files whose data rows agree, row by row, on the identifier, the four
    coordinates, the species and the confidence give the same outcome. *)
Theorem unused_columns :
  forall (annotation_file annotation_file' : list csv_line)
         (ds ds' : list DetectionRow),
    detections annotation_file = Ok ds ->
    detections annotation_file' = Ok ds' ->
    Forall2 same_used_columns ds ds' ->
    parse_annotation annotation_file = parse_annotation annotation_file'.
Proof.
  intros annotation_file annotation_file' ds ds' Hds Hds' Hsame.
  rewrite !parse_annotation_spec, Hds, Hds'. cbn [bind].
  rewrite !image_ids_of_column, (same_used_columns_ids ds ds' Hsame).
  destruct (has_str_accessor (map Imagename ds')); [|reflexivity].
  do 2 f_equal. apply map_ext. intros k.
  rewrite (same_used_columns_group k ds ds' Hsame). reflexivity.
Qed.

Lemma unused_columns_witness :
  parse_annotation two_image_file = parse_annotation relabelled_file.
Proof.
  apply (unused_columns two_image_file relabelled_file
                        two_image_rows relabelled_rows);
    [reflexivity | reflexivity |].
  repeat constructor.
Defined.
